(** * c3-launcher: the fleet launcher and its node monitors

    A shallow embedding of [src/c3_launcher.py].  The module-level globals of
    the script form the record [State]; every function of the script is a
    computation in a state-and-exception monad [M] over that record.

    The outside world is an oracle [World]: the n-th exchange with each
    endpoint of the provider is answered by the n-th entry of the matching
    stream, [time.time()] reads the n-th entry of [clock], and the shutdown
    flag may be cleared by the main thread while a monitor thread is blocked
    in its n-th blocking operation.  What a run does to the outside is
    recorded, in order, in [trace].

    Conventions
    - Python [int] is [Z]; [len] is [Z.of_nat (length _)].
    - A JSON object of the provider is a record of the keys the script reads.
    - [requests.post]/[requests.get] either return a response or raise; only
      [check_node_health] catches what they raise, as in the source.
    - [time.sleep] raises on a negative length, and [datetime.fromtimestamp]
      on a value that is missing or that the platform does not render
      ([renders]).  The clock is a real clock: its readings plus 3600 render,
      so the summary of [launch_nodes] (line 337) does not raise.
    - A thread is identified with the node it monitors; starting one is the
      event [ThreadStart].  Each function is executed as one thread's slice:
      other threads only interfere through [interrupt_at].
    - A log line is its level, the source text of its f-string without the
      emoji, and the interpolated values; timestamps are kept unrendered.
    - The wait of [main] for its threads (lines 380-381) is not run: it ends
      normally, or with the operator's interrupt when [sigint] is set.
    - The [while] of [monitor_node] takes fuel: the number of evaluations of
      its condition. *)

From Stdlib Require Import ZArith String List Lia Permutation.
From stdpp Require Import base gmap strings list pretty.

Open Scope string_scope.
Open Scope list_scope.
Open Scope Z_scope.

(** ** Data *)

(** An element of [active_nodes]: the launch response with the keys
    ['type'] and ['expires'] added by [launch_workload]. *)
Record NodeInfo := {
  node : string;
  workload : string;
  type : string;
  expires : Z
}.

#[global] Instance NodeInfo_eq_dec : EqDecision NodeInfo.
Proof. solve_decision. Defined.

(** Body of a 200 response of [/launch] and [/workloads]. *)
Record LaunchBody := { launched_node : string; launched_workload : string }.
(** The body of a 200 response of [/stop]: the keys the script reads, each
    possibly missing (a [stopped] that is not a number counts as missing), and
    whether the object has any other key. *)
Record StopBody := {
  stopped : option Z;
  refund_amount : option Z;
  other_keys : bool
}.
Record RunningEntry := { running_workload : string; running_node : string }.

Record Response (B : Type) := {
  status_code : Z;
  text : string;
  json : B
}.
Arguments status_code {B} _.
Arguments text {B} _.
Arguments json {B} _.

(** What [requests.post]/[requests.get] does: return a response, or raise. *)
Inductive Exchange (B : Type) :=
| Replied (r : Response B)
| Failed (detail : string).
Arguments Replied {B} r.
Arguments Failed {B} detail.

Inductive Value := VStr (s : string) | VInt (z : Z) | VBool (b : bool).
Inductive Level := INFO | WARNING | ERROR.

Inductive Event :=
| ReadClock (t : Z)                      (* int(time.time()) returned t *)
| PostLaunch (ty : string) (exp : Z)     (* POST /launch {type, expires} *)
| PostStop (id : string)                 (* POST /stop {workload} *)
| PostWorkloads                          (* POST /workloads {running} *)
| GetNode (host : string)                (* GET https://host, timeout 5 *)
| Sleep (secs : Z)                       (* time.sleep *)
| ThreadStart (n : NodeInfo)             (* thread.start() on monitor_node *)
| ThreadJoin (host : string)             (* thread.join(timeout=2) *)
| FlagCleared                            (* should_monitor = False, by the main thread *)
| Log (lvl : Level) (template : string) (args : list Value).

#[global] Instance Value_eq_dec : EqDecision Value.
Proof. solve_decision. Defined.
#[global] Instance Level_eq_dec : EqDecision Level.
Proof. solve_decision. Defined.
#[global] Instance Event_eq_dec : EqDecision Event.
Proof. solve_decision. Defined.

Inductive Exn :=
| RequestException (detail : string)   (* raised inside requests.post *)
| ValueError (detail : string)         (* time.sleep of a negative length *)
| FromTimestampError (arg : option Z)  (* datetime.fromtimestamp: TypeError
                                          on None; OverflowError, OSError or
                                          ValueError on a value out of range *)
| SystemExit (code : Z).

Inductive Result (A : Type) :=
| Ok (a : A)
| Raised (e : Exn).
Arguments Ok {A} a.
Arguments Raised {A} e.

(** ** The outside world *)

Record World := {
  launch_replies : nat -> Exchange LaunchBody;
  stop_replies : nat -> Exchange StopBody;
  list_replies : nat -> Exchange (list RunningEntry);
  health_replies : nat -> Exchange unit;
  clock : nat -> Z;
  (* whether [datetime.fromtimestamp] of the platform accepts a timestamp *)
  renders : Z -> bool;
  (* the blocking operation of this thread during which the main thread
     executes [should_monitor = False], if it does *)
  interrupt_at : option nat;
  (* whether the operator interrupts the wait of [main] *)
  sigint : bool
}.

(** ** The globals of the script, and the cursor into the world *)

Record State := {
  active_nodes : list NodeInfo;
  node_failures : gmap string Z;
  node_threads : list (string * NodeInfo);   (* a dict, in insertion order *)
  should_monitor : bool;
  target_node_count : Z;
  node_type_setting : string;
  keep_running : bool;
  WORKLOAD_POLL : Z;
  launches : nat;       (* exchanges with /launch so far *)
  stops : nat;          (* exchanges with /stop so far *)
  listings : nat;       (* exchanges with /workloads so far *)
  probes : nat;         (* health requests so far *)
  clock_reads : nat;    (* calls of time.time() so far *)
  blocking_ops : nat;   (* blocking operations so far *)
  trace : list Event
}.

Definition with_active_nodes (v : list NodeInfo) (s : State) : State :=
  {| active_nodes := v; node_failures := node_failures s;
     node_threads := node_threads s; should_monitor := should_monitor s;
     target_node_count := target_node_count s;
     node_type_setting := node_type_setting s; keep_running := keep_running s;
     WORKLOAD_POLL := WORKLOAD_POLL s; launches := launches s; stops := stops s;
     listings := listings s; probes := probes s; clock_reads := clock_reads s;
     blocking_ops := blocking_ops s; trace := trace s |}.

Definition with_node_failures (v : gmap string Z) (s : State) : State :=
  {| active_nodes := active_nodes s; node_failures := v;
     node_threads := node_threads s; should_monitor := should_monitor s;
     target_node_count := target_node_count s;
     node_type_setting := node_type_setting s; keep_running := keep_running s;
     WORKLOAD_POLL := WORKLOAD_POLL s; launches := launches s; stops := stops s;
     listings := listings s; probes := probes s; clock_reads := clock_reads s;
     blocking_ops := blocking_ops s; trace := trace s |}.

Definition with_node_threads (v : list (string * NodeInfo)) (s : State) : State :=
  {| active_nodes := active_nodes s; node_failures := node_failures s;
     node_threads := v; should_monitor := should_monitor s;
     target_node_count := target_node_count s;
     node_type_setting := node_type_setting s; keep_running := keep_running s;
     WORKLOAD_POLL := WORKLOAD_POLL s; launches := launches s; stops := stops s;
     listings := listings s; probes := probes s; clock_reads := clock_reads s;
     blocking_ops := blocking_ops s; trace := trace s |}.

Definition with_should_monitor (v : bool) (s : State) : State :=
  {| active_nodes := active_nodes s; node_failures := node_failures s;
     node_threads := node_threads s; should_monitor := v;
     target_node_count := target_node_count s;
     node_type_setting := node_type_setting s; keep_running := keep_running s;
     WORKLOAD_POLL := WORKLOAD_POLL s; launches := launches s; stops := stops s;
     listings := listings s; probes := probes s; clock_reads := clock_reads s;
     blocking_ops := blocking_ops s; trace := trace s |}.

Definition with_settings (target : Z) (setting : string) (keep : bool)
    (s : State) : State :=
  {| active_nodes := active_nodes s; node_failures := node_failures s;
     node_threads := node_threads s; should_monitor := should_monitor s;
     target_node_count := target;
     node_type_setting := setting; keep_running := keep;
     WORKLOAD_POLL := WORKLOAD_POLL s; launches := launches s; stops := stops s;
     listings := listings s; probes := probes s; clock_reads := clock_reads s;
     blocking_ops := blocking_ops s; trace := trace s |}.

Definition with_WORKLOAD_POLL (v : Z) (s : State) : State :=
  {| active_nodes := active_nodes s; node_failures := node_failures s;
     node_threads := node_threads s; should_monitor := should_monitor s;
     target_node_count := target_node_count s;
     node_type_setting := node_type_setting s; keep_running := keep_running s;
     WORKLOAD_POLL := v; launches := launches s; stops := stops s;
     listings := listings s; probes := probes s; clock_reads := clock_reads s;
     blocking_ops := blocking_ops s; trace := trace s |}.

Definition with_launches (v : nat) (s : State) : State :=
  {| active_nodes := active_nodes s; node_failures := node_failures s;
     node_threads := node_threads s; should_monitor := should_monitor s;
     target_node_count := target_node_count s;
     node_type_setting := node_type_setting s; keep_running := keep_running s;
     WORKLOAD_POLL := WORKLOAD_POLL s; launches := v; stops := stops s;
     listings := listings s; probes := probes s; clock_reads := clock_reads s;
     blocking_ops := blocking_ops s; trace := trace s |}.

Definition with_stops (v : nat) (s : State) : State :=
  {| active_nodes := active_nodes s; node_failures := node_failures s;
     node_threads := node_threads s; should_monitor := should_monitor s;
     target_node_count := target_node_count s;
     node_type_setting := node_type_setting s; keep_running := keep_running s;
     WORKLOAD_POLL := WORKLOAD_POLL s; launches := launches s; stops := v;
     listings := listings s; probes := probes s; clock_reads := clock_reads s;
     blocking_ops := blocking_ops s; trace := trace s |}.

Definition with_listings (v : nat) (s : State) : State :=
  {| active_nodes := active_nodes s; node_failures := node_failures s;
     node_threads := node_threads s; should_monitor := should_monitor s;
     target_node_count := target_node_count s;
     node_type_setting := node_type_setting s; keep_running := keep_running s;
     WORKLOAD_POLL := WORKLOAD_POLL s; launches := launches s; stops := stops s;
     listings := v; probes := probes s; clock_reads := clock_reads s;
     blocking_ops := blocking_ops s; trace := trace s |}.

Definition with_probes (v : nat) (s : State) : State :=
  {| active_nodes := active_nodes s; node_failures := node_failures s;
     node_threads := node_threads s; should_monitor := should_monitor s;
     target_node_count := target_node_count s;
     node_type_setting := node_type_setting s; keep_running := keep_running s;
     WORKLOAD_POLL := WORKLOAD_POLL s; launches := launches s; stops := stops s;
     listings := listings s; probes := v; clock_reads := clock_reads s;
     blocking_ops := blocking_ops s; trace := trace s |}.

Definition with_clock_reads (v : nat) (s : State) : State :=
  {| active_nodes := active_nodes s; node_failures := node_failures s;
     node_threads := node_threads s; should_monitor := should_monitor s;
     target_node_count := target_node_count s;
     node_type_setting := node_type_setting s; keep_running := keep_running s;
     WORKLOAD_POLL := WORKLOAD_POLL s; launches := launches s; stops := stops s;
     listings := listings s; probes := probes s; clock_reads := v;
     blocking_ops := blocking_ops s; trace := trace s |}.

Definition with_blocking_ops (v : nat) (s : State) : State :=
  {| active_nodes := active_nodes s; node_failures := node_failures s;
     node_threads := node_threads s; should_monitor := should_monitor s;
     target_node_count := target_node_count s;
     node_type_setting := node_type_setting s; keep_running := keep_running s;
     WORKLOAD_POLL := WORKLOAD_POLL s; launches := launches s; stops := stops s;
     listings := listings s; probes := probes s; clock_reads := clock_reads s;
     blocking_ops := v; trace := trace s |}.

Definition with_trace (v : list Event) (s : State) : State :=
  {| active_nodes := active_nodes s; node_failures := node_failures s;
     node_threads := node_threads s; should_monitor := should_monitor s;
     target_node_count := target_node_count s;
     node_type_setting := node_type_setting s; keep_running := keep_running s;
     WORKLOAD_POLL := WORKLOAD_POLL s; launches := launches s; stops := stops s;
     listings := listings s; probes := probes s; clock_reads := clock_reads s;
     blocking_ops := blocking_ops s; trace := v |}.

(** The globals as the module body leaves them (lines 25 and 46-52). *)
Definition initial_state (poll : Z) : State :=
  {| active_nodes := []; node_failures := ∅; node_threads := [];
     should_monitor := true; target_node_count := 1;
     node_type_setting := "alternate"; keep_running := false;
     WORKLOAD_POLL := poll; launches := 0; stops := 0; listings := 0;
     probes := 0; clock_reads := 0; blocking_ops := 0; trace := [] |}.

(** ** The monad *)

Definition M (A : Type) : Type := State -> Result A * State.

Definition ret {A} (a : A) : M A := fun s => (Ok a, s).

Definition bind {A B} (m : M A) (k : A -> M B) : M B :=
  fun s =>
    match m s with
    | (Ok a, s') => k a s'
    | (Raised e, s') => (Raised e, s')
    end.

Definition raise {A} (e : Exn) : M A := fun s => (Raised e, s).
Definition gets {A} (f : State -> A) : M A := fun s => (Ok (f s), s).
Definition modify (f : State -> State) : M unit := fun s => (Ok tt, f s).

Declare Scope prog_scope.
Delimit Scope prog_scope with prog.
Notation "x <- c ;; k" := (bind c (fun x => k))
  (at level 100, c at next level, right associativity) : prog_scope.
Notation "c ;; k" := (bind c (fun _ => k))
  (at level 100, right associativity) : prog_scope.
Open Scope prog_scope.

(** [for x in l: body], with the loop-carried locals in [acc]. *)
Fixpoint for_fold {A S} (l : list A) (acc : S) (body : A -> S -> M S) : M S :=
  match l with
  | [] => ret acc
  | x :: rest => acc' <- body x acc ;; for_fold rest acc' body
  end.

Definition for_each {A} (l : list A) (body : A -> M unit) : M unit :=
  for_fold l tt (fun x _ => body x).

Definition len {A} (l : list A) : Z := Z.of_nat (length l).

(** [range(n)] *)
Definition range (n : Z) : list Z := Z.of_nat <$> seq 0 (Z.to_nat n).

(** [d[k] = v] on an insertion-ordered dict *)
Fixpoint dict_set {V} (k : string) (v : V) (d : list (string * V))
    : list (string * V) :=
  match d with
  | [] => [(k, v)]
  | (k', v') :: rest =>
      if String.eqb k' k then (k, v) :: rest else (k', v') :: dict_set k v rest
  end.

Section Program.

Variable env : World.

(** ** Primitives *)

Definition add_event (e : Event) (s : State) : State :=
  with_trace (trace s ++ [e]) s.

Definition emit (e : Event) : M unit := modify (add_event e).

Definition logger_info (template : string) (args : list Value) : M unit :=
  emit (Log INFO template args).
Definition logger_warning (template : string) (args : list Value) : M unit :=
  emit (Log WARNING template args).
Definition logger_error (template : string) (args : list Value) : M unit :=
  emit (Log ERROR template args).

(** The thread is blocked; another thread may run.  The only write of
    another thread that is modelled is [should_monitor = False] (line 385),
    executed during blocking operation [interrupt_at env]. *)
Definition cleared_during (n : nat) : bool :=
  bool_decide (interrupt_at env = Some n).

Definition interfere (s : State) : State :=
  let n := blocking_ops s in
  with_trace (trace s ++ if cleared_during n then [FlagCleared] else [])
    (with_should_monitor (should_monitor s && negb (cleared_during n))
       (with_blocking_ops (S n) s)).

Definition blocked : M unit := modify interfere.

Definition time_time : M Z :=
  n <- gets clock_reads ;;
  modify (with_clock_reads (S n)) ;;
  emit (ReadClock (clock env n)) ;;
  ret (clock env n).

(** [time.sleep(secs)], which refuses a negative length. *)
Definition time_sleep (secs : Z) : M unit :=
  if secs <? 0 then raise (ValueError "sleep length must be non-negative")
  else emit (Sleep secs) ;; blocked.

(** [datetime.fromtimestamp(t)]; the value stands for the rendered time. *)
Definition fromtimestamp (t : option Z) : M Z :=
  match t with
  | Some z => if renders env z then ret z else raise (FromTimestampError t)
  | None => raise (FromTimestampError None)
  end.

Definition deliver {B} (x : Exchange B) : M (Response B) :=
  match x with
  | Replied r => ret r
  | Failed detail => raise (RequestException detail)
  end.

Definition post_launch (ty : string) (exp : Z) : M (Response LaunchBody) :=
  emit (PostLaunch ty exp) ;;
  n <- gets launches ;;
  modify (with_launches (S n)) ;;
  blocked ;;
  deliver (launch_replies env n).

Definition post_stop (id : string) : M (Response StopBody) :=
  emit (PostStop id) ;;
  n <- gets stops ;;
  modify (with_stops (S n)) ;;
  blocked ;;
  deliver (stop_replies env n).

Definition post_workloads : M (Response (list RunningEntry)) :=
  emit PostWorkloads ;;
  n <- gets listings ;;
  modify (with_listings (S n)) ;;
  blocked ;;
  deliver (list_replies env n).

(** [requests.get(node_url, ...)]; what it raises is handed to the caller. *)
Definition get_node (host : string) : M (Exchange unit) :=
  emit (GetNode host) ;;
  n <- gets probes ;;
  modify (with_probes (S n)) ;;
  blocked ;;
  ret (health_replies env n).

(** ** The functions of the script *)

(** lines 55-67 *)
Definition get_running_workloads : M (list RunningEntry) :=
  response <- post_workloads ;;
  if status_code response =? 200 then ret (json response)
  else
    logger_error "Error getting workloads: {response.status_code}"
                 [VInt (status_code response)] ;;
    logger_error "{response.text}" [VStr (text response)] ;;
    ret [].

(** lines 70-94 *)
Definition launch_workload (workload_type : string) : M (option NodeInfo) :=
  current_time <- time_time ;;
  let expires := current_time + 3600 in
  response <- post_launch workload_type expires ;;
  if status_code response =? 200 then
    let result := json response in
    ret (Some {| node := launched_node result;
                 workload := launched_workload result;
                 type := workload_type;
                 expires := expires |})
  else
    logger_error "Error launching workload: {response.status_code}"
                 [VInt (status_code response)] ;;
    logger_error "{response.text}" [VStr (text response)] ;;
    ret None.

(** lines 97-110 *)
Definition stop_workload (workload_id : string) : M (option StopBody) :=
  response <- post_stop workload_id ;;
  if status_code response =? 200 then ret (Some (json response))
  else
    logger_error "Error stopping workload: {response.status_code}"
                 [VInt (status_code response)] ;;
    logger_error "{response.text}" [VStr (text response)] ;;
    ret None.

(** [result.get('refund_amount', 0)] *)
Definition refund_of (result : StopBody) : Z :=
  match refund_amount result with Some r => r | None => 0 end.

(** The truth value of a response body: an empty object is false. *)
Definition nonempty (result : StopBody) : bool :=
  bool_decide (stopped result ≠ None)
  || bool_decide (refund_amount result ≠ None)
  || other_keys result.

(** [if result:] on the value of [stop_workload]. *)
Definition truth (result : option StopBody) : bool :=
  match result with Some body => nonempty body | None => false end.

(** The body of the loop of lines 117-129. *)
Definition stop_one (node_info : NodeInfo) : M unit :=
  let node_hostname := node node_info in
  let node_id := workload node_info in
  logger_info "Stopping {node_hostname} (ID: {node_id})..."
              [VStr node_hostname; VStr node_id] ;;
  result <- stop_workload node_id ;;
  match result with
  | Some body =>
      if nonempty body then
        stopped_time <- fromtimestamp (stopped body) ;;
        logger_info
          "Successfully stopped {node_hostname} at {stopped_time} (Refund: {refund})"
          [VStr node_hostname; VInt stopped_time; VInt (refund_of body)]
      else logger_error "Failed to stop {node_hostname}" [VStr node_hostname]
  | None =>
      logger_error "Failed to stop {node_hostname}" [VStr node_hostname]
  end.

(** lines 113-131 *)
Definition stop_all_workloads : M unit :=
  nodes <- gets active_nodes ;;
  logger_info "Stopping all {len(active_nodes)} active workloads..."
              [VInt (len nodes)] ;;
  for_each nodes stop_one ;;
  logger_info "All workloads stopped" [].

(** lines 134-144 *)
Definition check_node_health (node : string) : M bool :=
  outcome <- get_node node ;;
  match outcome with
  | Replied response => ret (status_code response =? 200)
  | Failed e =>
      logger_warning "Health check failed for {node}: {str(e)}"
                     [VStr node; VStr e] ;;
      ret false
  end.

(** lines 269-286 *)
Definition start_node_monitoring (node_info : NodeInfo) : M unit :=
  let node_hostname := node node_info in
  emit (ThreadStart node_info) ;;
  modify (fun s =>
    with_node_threads (dict_set node_hostname node_info (node_threads s)) s) ;;
  poll <- gets WORKLOAD_POLL ;;
  logger_info
    "Monitoring thread started for {node_hostname} (polling every {WORKLOAD_POLL} seconds)"
    [VStr node_hostname; VInt poll].

(** The body of the loop of lines 161-186; [current_count] and
    [nodes_to_add] are the locals of [ensure_target_node_count]. *)
Definition launch_replacement (current_count nodes_to_add i : Z) : M unit :=
  setting <- gets node_type_setting ;;
  let workload_type :=
    if String.eqb setting "alternate" then
      let idx := current_count + i in
      if idx mod 2 =? 0 then "ollama_webui:fast" else "ollama_webui:large"
    else ("ollama_webui:" +:+ setting) in
  logger_info
    "Launching replacement node {i+1}/{nodes_to_add} ({workload_type})..."
    [VInt (i + 1); VInt nodes_to_add; VStr workload_type] ;;
  result <- launch_workload workload_type ;;
  match result with
  | Some result =>
      modify (fun s => with_active_nodes (active_nodes s ++ [result]) s) ;;
      logger_info
        "Successfully launched node: {result.get('node')} (ID: {result.get('workload')})"
        [VStr (node result); VStr (workload result)] ;;
      modify (fun s =>
        with_node_failures (<[node result := 0]> (node_failures s)) s) ;;
      start_node_monitoring result ;;
      time_sleep 2
  | None => logger_error "Failed to launch replacement node" []
  end.

(** lines 147-188 *)
Definition ensure_target_node_count : M Z :=
  keep <- gets keep_running ;;
  if negb keep then nodes <- gets active_nodes ;; ret (len nodes)
  else
    nodes <- gets active_nodes ;;
    let current_count := len nodes in
    target <- gets target_node_count ;;
    (if current_count <? target then
       let nodes_to_add := target - current_count in
       logger_info
         "Current node count ({current_count}) is below target ({target_node_count}). Launching {nodes_to_add} additional nodes..."
         [VInt current_count; VInt target; VInt nodes_to_add] ;;
       for_each (range nodes_to_add)
                (launch_replacement current_count nodes_to_add)
     else ret tt) ;;
    nodes <- gets active_nodes ;;
    ret (len nodes).

(** lines 191-212 *)
Definition remove_failed_node (node_info : NodeInfo) : M unit :=
  let node_hostname := node node_info in
  let node_id := workload node_info in
  logger_info "Removing failed node {node_hostname} (ID: {node_id})"
              [VStr node_hostname; VStr node_id] ;;
  stop_result <- stop_workload node_id ;;
  (if truth stop_result then
     logger_info "Successfully stopped failed node {node_hostname}"
                 [VStr node_hostname]
   else
     logger_warning "Failed to stop node {node_hostname}, but continuing removal"
                    [VStr node_hostname]) ;;
  modify (fun s =>
    with_active_nodes (filter (fun n => workload n ≠ node_id) (active_nodes s)) s) ;;
  keep <- gets keep_running ;;
  if keep then ensure_target_node_count ;; ret tt else ret tt.

(** The retry loop of lines 247-254; the value is [is_alive]. *)
Fixpoint health_retries (node_hostname : string) (retries : list Z) : M bool :=
  match retries with
  | [] => ret false
  | retry :: rest =>
      is_healthy <- check_node_health node_hostname ;;
      if is_healthy then ret true
      else
        logger_warning
          "Health check failed for {node_hostname} (attempt {retry+1}/3)"
          [VStr node_hostname; VInt (retry + 1)] ;;
        health_retries node_hostname rest
  end.

Inductive Flow := Continue | Break.

(** The body of the [while] of [monitor_node], lines 233-264. *)
Definition monitor_cycle (node_info : NodeInfo) : M Flow :=
  let node_hostname := node node_info in
  let node_id := workload node_info in
  current_workloads <- get_running_workloads ;;
  let workload_ids := running_workload <$> current_workloads in
  if bool_decide (node_id ∉ workload_ids) then
    logger_warning
      "Node {node_hostname} (ID: {node_id}) is no longer in workloads response, considering it removed"
      [VStr node_hostname; VStr node_id] ;;
    modify (fun s =>
      with_active_nodes (filter (fun n => workload n ≠ node_id) (active_nodes s)) s) ;;
    keep <- gets keep_running ;;
    (if keep then ensure_target_node_count ;; ret tt else ret tt) ;;
    ret Break
  else
    is_alive <- health_retries node_hostname (range 3) ;;
    if negb is_alive then
      logger_error "Node {node_hostname} failed all health checks, removing..."
                   [VStr node_hostname] ;;
      remove_failed_node node_info ;;
      ret Break
    else
      logger_info "Node {node_hostname} is healthy" [VStr node_hostname] ;;
      poll <- gets WORKLOAD_POLL ;;
      time_sleep poll ;;
      ret Continue.

(** The [while] of line 232.  [fuel] bounds the number of times its condition
    is evaluated; the value tells whether the loop was left within it. *)
Fixpoint monitor_loop (fuel : nat) (node_info : NodeInfo) : M bool :=
  match fuel with
  | O => ret false
  | S fuel' =>
      monitoring <- gets should_monitor ;;
      nodes <- gets active_nodes ;;
      if monitoring && bool_decide (node_info ∈ nodes) then
        flow <- monitor_cycle node_info ;;
        match flow with
        | Break => ret true
        | Continue => monitor_loop fuel' node_info
        end
      else ret true
  end.

(** lines 215-266; the value tells whether the thread ended within [fuel]
    evaluations of the loop condition. *)
Definition monitor_node (fuel : nat) (node_info : NodeInfo) : M bool :=
  let node_hostname := node node_info in
  let node_type := type node_info in
  logger_info "Starting monitoring thread for node {node_hostname} ({node_type})"
              [VStr node_hostname; VStr node_type] ;;
  is_healthy <- check_node_health node_hostname ;;
  (if is_healthy then
     logger_info "Node {node_hostname} is up and running" [VStr node_hostname]
   else
     logger_warning
       "Initial health check failed for node {node_hostname}, will retry"
       [VStr node_hostname]) ;;
  left <- monitor_loop fuel node_info ;;
  if left then
    logger_info "Monitoring stopped for node {node_hostname}" [VStr node_hostname] ;;
    ret true
  else ret false.

(** [for idx, node in enumerate(l)] *)
Definition enumerate {A} (l : list A) : list (Z * A) :=
  zip (range (len l)) l.

(** The body of the loop of lines 306-327; [successful_launches] is the
    local list of [launch_nodes]. *)
Definition launch_one (num_nodes : Z) (node_type : string) (i : Z)
    (successful_launches : list NodeInfo) : M (list NodeInfo) :=
  let workload_type :=
    if String.eqb node_type "alternate" then
      if i mod 2 =? 0 then "ollama_webui:fast" else "ollama_webui:large"
    else ("ollama_webui:" +:+ node_type) in
  logger_info "Launching node {i+1}/{num_nodes} ({workload_type})..."
              [VInt (i + 1); VInt num_nodes; VStr workload_type] ;;
  result <- launch_workload workload_type ;;
  match result with
  | Some result =>
      logger_info "Node {i+1}: {result.get('node')} (ID: {result.get('workload')})"
                  [VInt (i + 1); VStr (node result); VStr (workload result)] ;;
      logger_info "Waiting 5 seconds for node to initialize..." [] ;;
      time_sleep 5 ;;
      modify (fun s =>
        with_node_failures (<[node result := 0]> (node_failures s)) s) ;;
      ret (successful_launches ++ [result])
  | None =>
      logger_error "Failed to launch node {i+1}" [VInt (i + 1)] ;;
      ret successful_launches
  end.

(** lines 289-349 *)
Definition launch_nodes (num_nodes : Z) (keep_nodes_running : bool)
    (node_type : string) : M unit :=
  modify (with_settings num_nodes node_type keep_nodes_running) ;;
  keep <- gets keep_running ;;
  logger_info "Launching {num_nodes} nodes (keep running: {keep_running}, type: {node_type})"
              [VInt num_nodes; VBool keep; VStr node_type] ;;
  poll <- gets WORKLOAD_POLL ;;
  logger_info "Node health polling interval: {WORKLOAD_POLL} seconds" [VInt poll] ;;
  current_time <- time_time ;;
  successful_launches <-
    for_fold (range num_nodes) [] (launch_one num_nodes node_type) ;;
  logger_info "=== Launch Summary ===" [] ;;
  logger_info "Requested: {num_nodes} nodes" [VInt num_nodes] ;;
  logger_info "Successful: {len(successful_launches)} nodes"
              [VInt (len successful_launches)] ;;
  for_each (enumerate successful_launches) (fun '(idx, n) =>
    logger_info "{idx+1}. {node.get('node')} (Type: {node_type_str}, Expires: {expiry_time})"
                [VInt (idx + 1); VStr (node n); VStr (type n); VInt (expires n)]) ;;
  modify (with_active_nodes successful_launches) ;;
  nodes <- gets active_nodes ;;
  for_each nodes start_node_monitoring ;;
  keep <- gets keep_running ;;
  if keep && (len successful_launches <? num_nodes)
  then ensure_target_node_count ;; ret tt
  else ret tt.

(** The parsed command line (lines 353-362). *)
Record Args := {
  arg_nodes : Z;
  arg_runtime : option Z;
  arg_keep_running : bool;
  arg_poll : option Z;
  arg_type : string;
  arg_no_rm : bool
}.

(** lines 352-399.  The wait of lines 380-381 ends either because every
    monitor thread has ended or, when [sigint env], by [KeyboardInterrupt]. *)
Definition main (args : Args) : M unit :=
  (if arg_nodes args <? 1 then
     logger_error "Error: Number of nodes must be at least 1" [] ;;
     raise (SystemExit 1)
   else ret tt) ;;
  match arg_poll args with
  | Some p =>
      if 0 <? p then
        modify (with_WORKLOAD_POLL p) ;;
        poll <- gets WORKLOAD_POLL ;;
        logger_info "Setting node health polling interval to {WORKLOAD_POLL} seconds"
                    [VInt poll]
      else ret tt
  | None => ret tt
  end ;;
  launch_nodes (arg_nodes args) (arg_keep_running args) (arg_type args) ;;
  if sigint env then
    logger_info "Shutting down monitoring..." [] ;;
    modify (with_should_monitor false) ;;
    threads <- gets node_threads ;;
    for_each threads (fun '(hostname, _) =>
      logger_info "Waiting for {hostname} monitoring to complete..."
                  [VStr hostname] ;;
      emit (ThreadJoin hostname)) ;;
    (if negb (arg_no_rm args) then
       logger_info
         "Stopping all workloads before exit (use --no-rm to keep them running)" [] ;;
       stop_all_workloads
     else
       logger_info "Leaving all workloads running (--no-rm flag is set)" []) ;;
    logger_info "Bye!" []
  else ret tt.

End Program.

(** ** Views of a trace *)

(** The types of the launch requests of a trace, in order. *)
Definition launch_types (evs : list Event) : list string :=
  omap (fun e => match e with PostLaunch ty _ => Some ty | _ => None end) evs.

(** The workload ids of the stop requests of a trace, in order. *)
Definition stop_requests (evs : list Event) : list string :=
  omap (fun e => match e with PostStop id => Some id | _ => None end) evs.

(** The hosts of the health requests of a trace, in order. *)
Definition health_requests (evs : list Event) : list string :=
  omap (fun e => match e with GetNode host => Some host | _ => None end) evs.

(** A trace without the writes of the main thread. *)
Definition own_events (evs : list Event) : list Event :=
  filter (fun e => e ≠ FlagCleared) evs.

(** What happens after the shutdown flag was first cleared. *)
Fixpoint after_flag (evs : list Event) : list Event :=
  match evs with
  | [] => []
  | FlagCleared :: rest => rest
  | _ :: rest => after_flag rest
  end.

(** Every launch request directly follows a reading [t] of the clock and
    carries the expiration [t + 3600]. *)
Definition launches_timed (evs : list Event) : Prop :=
  ∀ (i : nat) ty exp, evs !! i = Some (PostLaunch ty exp) →
    ∃ j t, i = S j ∧ evs !! j = Some (ReadClock t) ∧ exp = t + 3600.

(** Whether a health exchange counts as healthy (lines 139-144). *)
Definition healthy (x : Exchange unit) : bool :=
  match x with
  | Replied response => status_code response =? 200
  | Failed _ => false
  end.

(** The type policy in the words of the specification: "alternating" yields
    type A for even launch index, type B for odd; "fixed" yields one
    configured type for every index. *)
Definition type_policy (setting : string) (index : Z) : string :=
  if String.eqb setting "alternate" then
    if Z.even index then "ollama_webui:fast" else "ollama_webui:large"
  else ("ollama_webui:" +:+ setting).

(** ** Scenarios *)

Definition ok {B} (body : B) : Exchange B :=
  Replied {| status_code := 200; text := "OK"; json := body |}.

Definition refused {B} (code : Z) (body : B) : Exchange B :=
  Replied {| status_code := code; text := "error"; json := body |}.

Definition node1 : NodeInfo :=
  {| node := "h1"; workload := "w1"; type := "ollama_webui:fast"; expires := 4600 |}.
Definition node2 : NodeInfo :=
  {| node := "h2"; workload := "w2"; type := "ollama_webui:large"; expires := 4600 |}.
Definition node3 : NodeInfo :=
  {| node := "h3"; workload := "w3"; type := "ollama_webui:fast"; expires := 4600 |}.

Definition entry_of (n : NodeInfo) : RunningEntry :=
  {| running_workload := workload n; running_node := node n |}.

Definition stopped_at (t : Z) : StopBody :=
  {| stopped := Some t; refund_amount := Some 1; other_keys := false |}.

Definition fresh (k : nat) : LaunchBody :=
  {| launched_node := "n" +:+ pretty (N.of_nat k);
     launched_workload := "id" +:+ pretty (N.of_nat k) |}.

(** A provider that answers every request with 200, lists [listed] and
    whose nodes are all healthy. *)
Definition calm (listed : list NodeInfo) : World :=
  {| launch_replies := fun k => ok (fresh k);
     stop_replies := fun _ => ok (stopped_at 2000);
     list_replies := fun _ => ok (entry_of <$> listed);
     health_replies := fun _ => ok tt;
     clock := fun k => 1000 + Z.of_nat k;
     renders := fun _ => true;
     interrupt_at := None;
     sigint := false |}.

(** The fleet [nodes] at its target size, as [launch_nodes] leaves it. *)
Definition fleet_of (nodes : list NodeInfo) (keep : bool) : State :=
  with_active_nodes nodes
    (with_node_failures (list_to_map ((fun n => (node n, 0)) <$> nodes))
       (with_settings (len nodes) "alternate" keep (initial_state 30))).

(** The command line with another value for [--runtime]. *)
Definition with_runtime (r : option Z) (args : Args) : Args :=
  {| arg_nodes := arg_nodes args; arg_runtime := r;
     arg_keep_running := arg_keep_running args; arg_poll := arg_poll args;
     arg_type := arg_type args; arg_no_rm := arg_no_rm args |}.

Definition two_nodes : Args :=
  {| arg_nodes := 2; arg_runtime := Some 60; arg_keep_running := true;
     arg_poll := None; arg_type := "alternate"; arg_no_rm := false |}.

(** ** Notions used in the statements, and more scenarios *)


(** Every run of [m] from a state in [I] ends in a state in [I], also when
    it raises. *)
Definition preserves {A} (I : State -> Prop) (m : M A) : Prop :=
  ∀ s, I s -> I (snd (m s)).

(** The launch requests sent so far are timed. *)
Definition timed (s : State) : Prop := launches_timed (trace s).

(** The flag is cleared while the monitor waits for the list of its first
    cycle; the node is listed, and unhealthy. *)
Definition late_interrupt : World :=
  {| launch_replies := fun k => ok (fresh k);
     stop_replies := fun _ => ok (stopped_at 2000);
     list_replies := fun _ => ok [entry_of node1];
     health_replies := fun _ => refused 503 tt;
     clock := fun k => 1000 + Z.of_nat k;
     renders := fun _ => true;
     interrupt_at := Some 1%nat;
     sigint := true |}.

(** The provider answers the list call with 503; every node is healthy. *)
Definition outage : World :=
  {| launch_replies := fun k => ok (fresh k);
     stop_replies := fun _ => ok (stopped_at 2000);
     list_replies := fun _ => refused 503 [];
     health_replies := fun _ => ok tt;
     clock := fun k => 1000 + Z.of_nat k;
     renders := fun _ => true;
     interrupt_at := None;
     sigint := false |}.

(** Whether the time of a successful stop can be reported (line 125): the
    answer is not a success, or its body is empty, or its [stopped] is a
    timestamp that the platform renders. *)
Definition reportable (env : World) (r : Response StopBody) : bool :=
  negb (status_code r =? 200) || negb (nonempty (json r))
  || match stopped (json r) with Some t => renders env t | None => false end.

(** What [stop_all_workloads] does and logs for one node whose stop request
    was answered by the reportable [r]. *)
Definition stop_report (n : NodeInfo) (r : Response StopBody) : list Event :=
  [Log INFO "Stopping {node_hostname} (ID: {node_id})..."
       [VStr (node n); VStr (workload n)];
   PostStop (workload n)]
  ++ (if status_code r =? 200 then
        if nonempty (json r) then
          [Log INFO
             "Successfully stopped {node_hostname} at {stopped_time} (Refund: {refund})"
             [VStr (node n); VInt (default 0 (stopped (json r)));
              VInt (refund_of (json r))]]
        else [Log ERROR "Failed to stop {node_hostname}" [VStr (node n)]]
      else
        [Log ERROR "Error stopping workload: {response.status_code}"
             [VInt (status_code r)];
         Log ERROR "{response.text}" [VStr (text r)];
         Log ERROR "Failed to stop {node_hostname}" [VStr (node n)]]).

(** The second stop request is answered with 500. *)
Definition one_stop_fails : World :=
  {| launch_replies := fun k => ok (fresh k);
     stop_replies := fun k =>
       if (k =? 1)%nat then refused 500 (stopped_at 0) else ok (stopped_at 2000);
     list_replies := fun _ => ok [];
     health_replies := fun _ => ok tt;
     clock := fun k => 1000 + Z.of_nat k;
     renders := fun _ => true;
     interrupt_at := None;
     sigint := true |}.

(** The node is listed and unhealthy; the provider answers the stop request
    with 500. *)
Definition dead_node : World :=
  {| launch_replies := fun k => ok (fresh k);
     stop_replies := fun _ => refused 500 (stopped_at 0);
     list_replies := fun _ => ok [entry_of node1];
     health_replies := fun _ => refused 503 tt;
     clock := fun k => 1000 + Z.of_nat k;
     renders := fun _ => true;
     interrupt_at := None;
     sigint := false |}.

(** The provider cannot be reached for the second stop request. *)
Definition second_stop_unreachable : World :=
  {| launch_replies := fun k => ok (fresh k);
     stop_replies := fun k =>
       if (k =? 1)%nat then Failed "connection reset" else ok (stopped_at 2000);
     list_replies := fun _ => ok [];
     health_replies := fun _ => ok tt;
     clock := fun k => 1000 + Z.of_nat k;
     renders := fun _ => true;
     interrupt_at := None;
     sigint := true |}.

(** Every stop succeeds; the provider reports the time of the stop in
    milliseconds, which is past the year 9999 and is not rendered. *)
Definition stop_in_milliseconds : World :=
  {| launch_replies := fun k => ok (fresh k);
     stop_replies := fun _ => ok (stopped_at 1700000000000);
     list_replies := fun _ => ok [];
     health_replies := fun _ => ok tt;
     clock := fun k => 1000 + Z.of_nat k;
     renders := fun t => (-62135596800 <=? t) && (t <=? 253402300799);
     interrupt_at := None;
     sigint := true |}.

(** The events of a reconciliation: launches and their bookkeeping. *)
Definition reconcile_event (e : Event) : bool :=
  match e with
  | ReadClock _ | PostLaunch _ _ | Sleep _ | ThreadStart _ | FlagCleared
  | Log _ _ _ => true
  | PostStop _ | PostWorkloads | GetNode _ | ThreadJoin _ => false
  end.

(** Starting from the trace [t0], only events in [Q] were added. *)
Definition added (Q : Event -> Prop) (t0 : list Event) (s : State) : Prop :=
  ∃ evs, trace s = t0 ++ evs ∧ Forall Q evs.

(** The fleet and the settings: what only the controller writes. *)
Definition globals (s : State) :=
  (active_nodes s, node_failures s, node_threads s, target_node_count s,
   node_type_setting s, keep_running s, WORKLOAD_POLL s).

(** From [s] to [s'], [k] health requests to [host] were made, and log
    lines written; nothing else happened. *)
Record probed (host : string) (k : nat) (s s' : State) : Prop := {
  probed_globals : globals s' = globals s;
  probed_launches : launches s' = launches s;
  probed_stops : stops s' = stops s;
  probed_listings : listings s' = listings s;
  probed_clock_reads : clock_reads s' = clock_reads s;
  probed_probes : probes s' = (probes s + k)%nat;
  probed_trace : ∃ evs, trace s' = trace s ++ evs
                   ∧ health_requests evs = replicate k host
                   ∧ stop_requests evs = [] ∧ launch_types evs = []
}.

(** Events that are not a health request, not a stop request. *)
Definition not_probe (e : Event) : Prop := ∀ h, e ≠ GetNode h.
Definition not_stop (e : Event) : Prop := ∀ id, e ≠ PostStop id.




(** Whether a launch exchange produced a node (lines 86-94). *)
Definition answered_ok (x : Exchange LaunchBody) : bool :=
  match x with
  | Replied response => status_code response =? 200
  | Failed _ => false
  end.

(** The type policy on natural indices. *)
Definition type_at (setting : string) (i : nat) : string :=
  type_policy setting (Z.of_nat i).

(** The first launch request is answered with 500, all others with 200. *)
Definition first_launch_fails : World :=
  {| launch_replies := fun k =>
       if (k =? 0)%nat then refused 500 (fresh k) else ok (fresh k);
     stop_replies := fun _ => ok (stopped_at 2000);
     list_replies := fun _ => ok [];
     health_replies := fun _ => ok tt;
     clock := fun k => 1000 + Z.of_nat k;
     renders := fun _ => true;
     interrupt_at := None;
     sigint := false |}.

(** The indices whose type is fast under the alternating policy. *)
Definition even_index (i : nat) : bool := Z.even (Z.of_nat i).

(** The number of even indices in [l]. *)
Definition fast_count (l : list nat) : nat :=
  length (filter (fun i => even_index i = true) l).

(** The settings written by [launch_nodes] are those of [s]. *)
Definition same_settings (s s' : State) : Prop :=
  target_node_count s' = target_node_count s
  ∧ node_type_setting s' = node_type_setting s
  ∧ keep_running s' = keep_running s.

(** What a loop that only logs, or only starts threads, leaves alone. *)
Definition core (s : State) :=
  (active_nodes s, launches s, target_node_count s, node_type_setting s,
   keep_running s).

(** The second launch request is answered with 500, all others with 200. *)
Definition last_launch_fails : World :=
  {| launch_replies := fun k =>
       if (k =? 1)%nat then refused 500 (fresh k) else ok (fresh k);
     stop_replies := fun _ => ok (stopped_at 2000);
     list_replies := fun _ => ok [];
     health_replies := fun _ => ok tt;
     clock := fun k => 1000 + Z.of_nat k;
     renders := fun _ => true;
     interrupt_at := None;
     sigint := false |}.

(** The number of failed health-check cycles of [host] since its last
    successful health check, read off the log of its monitor: a failed cycle
    is reported by line 257, a successful check by line 228 or line 261. *)
Definition failed_cycles (host : string) (evs : list Event) : nat :=
  fold_left
    (fun count e =>
       match e with
       | Log ERROR "Node {node_hostname} failed all health checks, removing..."
             [VStr h] =>
           if String.eqb h host then S count else count
       | Log INFO "Node {node_hostname} is healthy" [VStr h]
       | Log INFO "Node {node_hostname} is up and running" [VStr h] =>
           if String.eqb h host then 0%nat else count
       | _ => count
       end)
    evs 0%nat.

(** The node is listed and unhealthy, and the provider cannot be reached
    for the stop request. *)
Definition stop_unreachable : World :=
  {| launch_replies := fun k => ok (fresh k);
     stop_replies := fun _ => Failed "connection refused";
     list_replies := fun _ => ok [entry_of node1];
     health_replies := fun _ => refused 503 tt;
     clock := fun k => 1000 + Z.of_nat k;
     renders := fun _ => true;
     interrupt_at := None;
     sigint := false |}.

(** Every failure counter is 0. *)
Definition counters_zero (s : State) : Prop :=
  ∀ h v, node_failures s !! h = Some v -> v = 0.

(** ** Notions of the further properties *)





(** The settings of the fleet. *)
Definition settings (s : State) :=
  (target_node_count s, node_type_setting s, keep_running s, WORKLOAD_POLL s).

(** The settings are [c]. *)
Definition settings_are (c : Z * string * bool * Z) (s : State) : Prop :=
  settings s = c.

(** The polling interval that [--poll] asks for, given the current one. *)
Definition poll_of (args : Args) (current : Z) : Z :=
  match arg_poll args with
  | Some p => if 0 <? p then p else current
  | None => current
  end.



(** The hosts of the threads joined in a trace, in order. *)
Definition thread_joins (evs : list Event) : list string :=
  omap (fun e => match e with ThreadJoin h => Some h | _ => None end) evs.

(** What the main thread may send and do, stop requests included. *)
Definition main_event (e : Event) : Prop :=
  (∀ h, e ≠ GetNode h) ∧ e ≠ PostWorkloads.

(** The shutdown has begun. *)
Definition flag_cleared (s : State) : Prop := should_monitor s = false.

Definition leave_running : Args :=
  {| arg_nodes := 2; arg_runtime := None; arg_keep_running := false;
     arg_poll := None; arg_type := "alternate"; arg_no_rm := true |}.

(** The body of the loop of lines 388-390. *)
Definition join_one (entry : string * NodeInfo) : M unit :=
  let '(hostname, _) := entry in
  logger_info "Waiting for {hostname} monitoring to complete..."
              [VStr hostname] ;;
  emit (ThreadJoin hostname).

(** The handler of [KeyboardInterrupt] in [main], lines 383-399. *)
Definition shutdown (env : World) (no_rm : bool) : M unit :=
  logger_info "Shutting down monitoring..." [] ;;
  modify (with_should_monitor false) ;;
  threads <- gets node_threads ;;
  for_each threads join_one ;;
  (if negb no_rm then
     logger_info
       "Stopping all workloads before exit (use --no-rm to keep them running)" [] ;;
     stop_all_workloads env
   else
     logger_info "Leaving all workloads running (--no-rm flag is set)" []) ;;
  logger_info "Bye!" [].

(** The operator interrupts a calm run. *)
Definition interrupted : World :=
  {| launch_replies := fun k => ok (fresh k);
     stop_replies := fun _ => ok (stopped_at 2000);
     list_replies := fun _ => ok [];
     health_replies := fun _ => ok tt;
     clock := fun k => 1000 + Z.of_nat k;
     renders := fun _ => true;
     interrupt_at := None;
     sigint := true |}.

(** Only events of a reconciliation. *)
Definition reconcile_only (evs : list Event) : Prop :=
  Forall (fun e => reconcile_event e = true) evs.




(** [stop_all_workloads], started in [s], gave up with [e] at its [k]-th stop:
    the request raised, or its answer was a success whose time could not be
    rendered. *)
Definition gave_up (env : World) (s : State) (k : nat) (e : Exn) : Prop :=
  (∃ d, e = RequestException d
        ∧ stop_replies env (stops s + k - 1)%nat = Failed d)
  ∨ (∃ r, e = FromTimestampError (stopped (json r))
          ∧ stop_replies env (stops s + k - 1)%nat = Replied r
          ∧ reportable env r = false).


(** Since the state with the fleet [fleet] and [count] launch requests,
    nothing was launched, the fleet was not replenished, and the nodes with
    the workload id [id] may have left it. *)
Definition only_shrunk (fleet : list NodeInfo) (count : nat) (id : string)
    (s : State) : Prop :=
  keep_running s = false
  ∧ launches s = count
  ∧ (active_nodes s = fleet
     ∨ active_nodes s = filter (fun m => workload m ≠ id) fleet).

(** A node that answers, monitored without replacement. *)
Definition no_replacement : State := fleet_of [node1; node2] false.

(** What the monitor of [n] may send and do: requests about its own node,
    list requests, and what a reconciliation does. *)
Definition monitor_event (n : NodeInfo) (e : Event) : Prop :=
  match e with
  | PostStop id => id = workload n
  | GetNode host => host = node n
  | ThreadJoin _ => False
  | _ => True
  end.

(** * Running a computation symbolically *)

Lemma run_bind_bind {A B C} (m : M A) (f : A -> M B) (g : B -> M C) s :
  bind (bind m f) g s = bind m (fun a => bind (f a) g) s.
Proof. unfold bind. destruct (m s) as [[a|e] s']; reflexivity. Qed.

Lemma run_ret {A B} (a : A) (k : A -> M B) s : bind (ret a) k s = k a s.
Proof. reflexivity. Qed.

Lemma run_gets {A B} (f : State -> A) (k : A -> M B) s :
  bind (gets f) k s = k (f s) s.
Proof. reflexivity. Qed.

Lemma run_modify {B} (f : State -> State) (k : unit -> M B) s :
  bind (modify f) k s = k tt (f s).
Proof. reflexivity. Qed.

Lemma run_raise {A B} (e : Exn) (k : A -> M B) s :
  bind (raise e) k s = (Raised e, s).
Proof. reflexivity. Qed.

Lemma run_bind_ok {A B} (m : M A) (k : A -> M B) s a s' :
  m s = (Ok a, s') -> bind m k s = k a s'.
Proof. intros E. unfold bind. rewrite E. reflexivity. Qed.

Lemma run_bind_raised {A B} (m : M A) (k : A -> M B) s e s' :
  m s = (Raised e, s') -> bind m k s = (Raised e, s').
Proof. intros E. unfold bind. rewrite E. reflexivity. Qed.

(** Projections of a state that is a chain of updates. *)
Ltac proj :=
  cbn [active_nodes node_failures node_threads should_monitor target_node_count
       node_type_setting keep_running WORKLOAD_POLL launches stops listings
       probes clock_reads blocking_ops trace
       with_active_nodes with_node_failures with_node_threads
       with_should_monitor with_settings with_WORKLOAD_POLL with_launches
       with_stops with_listings with_probes with_clock_reads
       with_blocking_ops with_trace add_event interfere fst snd deliver] in *.

Ltac unwrap :=
  unfold logger_info, logger_warning, logger_error, time_sleep, time_time,
    fromtimestamp, post_launch, post_stop, post_workloads, get_node, blocked,
    emit;
  change (5 <? 0) with false; change (2 <? 0) with false; cbv iota.

Ltac step :=
  first [ rewrite run_bind_bind | rewrite run_ret | rewrite run_gets
        | rewrite run_modify | rewrite run_raise ].

Ltac steps := repeat (step; proj).

Ltac finish := cbv [ret gets modify raise]; proj.

(** * Invariants of runs *)

Section Preservation.

Context (I : State -> Prop).

Lemma preserves_ret {A} (a : A) : preserves I (ret a).
Proof. intros s H. exact H. Qed.

Lemma preserves_gets {A} (f : State -> A) : preserves I (gets f).
Proof. intros s H. exact H. Qed.

Lemma preserves_raise {A} (e : Exn) : preserves I (@raise A e).
Proof. intros s H. exact H. Qed.

Lemma preserves_modify (f : State -> State) :
  (∀ s, I s -> I (f s)) -> preserves I (modify f).
Proof. intros Hf s H. apply Hf, H. Qed.

Lemma preserves_bind {A B} (m : M A) (k : A -> M B) :
  preserves I m -> (∀ a, preserves I (k a)) -> preserves I (bind m k).
Proof.
  intros Hm Hk s H. specialize (Hm s H). unfold bind.
  destruct (m s) as [[a|e] s']; cbn in *.
  - apply Hk, Hm.
  - exact Hm.
Qed.

Lemma preserves_for_fold {A S} (l : list A) (body : A -> S -> M S) :
  (∀ x acc, preserves I (body x acc)) ->
  ∀ acc, preserves I (for_fold l acc body).
Proof.
  intros Hbody. induction l as [|x l IH]; intros acc; cbn [for_fold].
  - apply preserves_ret.
  - apply preserves_bind; [apply Hbody | intros acc'; apply IH].
Qed.

Lemma preserves_for_each {A} (l : list A) (body : A -> M unit) :
  (∀ x, preserves I (body x)) -> preserves I (for_each l body).
Proof. intros Hbody. apply preserves_for_fold. intros x _. apply Hbody. Qed.

End Preservation.

(** Splits a goal [preserves I m] along the structure of [m]; what is left
    are the updates of the state and the calls of other functions. *)
Ltac pres :=
  repeat match goal with
    | |- preserves _ (ret _) => apply preserves_ret
    | |- preserves _ (gets _) => apply preserves_gets
    | |- preserves _ (raise _) => apply preserves_raise
    | |- preserves _ (bind _ _) => apply preserves_bind; [| intros ? ]
    | |- preserves _ (for_each _ _) => apply preserves_for_each; intros ?
    | |- preserves _ (for_fold _ _ _) => apply preserves_for_fold; intros ? ?
    | |- preserves _ (modify _) => apply preserves_modify; intros ? ?
    | |- preserves _ (if ?b then _ else _) => destruct b
    | |- preserves _ (match ?x with Some _ => _ | None => _ end) => destruct x
    | |- preserves _ (match ?x with Replied _ => _ | Failed _ => _ end) =>
        destruct x
    | |- preserves _ (match ?x with Continue => _ | Break => _ end) =>
        destruct x
    | |- preserves _ (let '(_, _) := ?x in _) => destruct x
    | |- preserves _ (deliver ?x) => destruct x; cbn [deliver]
    end.

(** * The lease window (C10) *)

Lemma launches_timed_nil : launches_timed [].
Proof. intros i ty exp H. rewrite lookup_nil in H. discriminate. Qed.

Lemma launches_timed_app l l' :
  launches_timed l -> launches_timed l' -> launches_timed (l ++ l').
Proof.
  intros Hl Hl' i ty exp H.
  destruct (decide (i < length l)%nat) as [Hi|Hi].
  - rewrite lookup_app_l in H by exact Hi.
    destruct (Hl i ty exp H) as (j & t & -> & Hj & ->).
    exists j, t. split; [reflexivity|]. split; [|reflexivity].
    rewrite lookup_app_l by lia. exact Hj.
  - rewrite lookup_app_r in H by lia.
    destruct (Hl' _ ty exp H) as (j & t & Hij & Hj & ->).
    exists (length l + j)%nat, t. split; [lia|]. split; [|reflexivity].
    rewrite lookup_app_r by lia.
    replace (length l + j - length l)%nat with j by lia. exact Hj.
Qed.

Lemma launches_timed_other e :
  (∀ ty exp, e ≠ PostLaunch ty exp) -> launches_timed [e].
Proof.
  intros He i ty exp H. destruct i as [|i]; cbn in H; [|discriminate].
  injection H as H. destruct (He _ _ H).
Qed.

Lemma launches_timed_request t ty :
  launches_timed [ReadClock t; PostLaunch ty (t + 3600)].
Proof.
  intros i ty' exp H. destruct i as [|[|i]]; cbn in H; try discriminate.
  injection H as <- <-. exists 0%nat, t. repeat split.
Qed.

Lemma launches_timed_quiet l : launch_types l = [] -> launches_timed l.
Proof.
  intros H i ty exp Hi. exfalso.
  assert (Hin : ty ∈ launch_types l).
  { unfold launch_types. apply list_elem_of_omap.
    exists (PostLaunch ty exp). split; [|reflexivity].
    eapply list_elem_of_lookup_2, Hi. }
  rewrite H in Hin. inversion Hin.
Qed.

(** An update that leaves the trace alone or adds an event that is not a
    launch request keeps the trace timed. *)
Ltac timed_update :=
  unfold timed in *; proj;
  first
    [ assumption
    | apply launches_timed_app;
      [ assumption
      | first
          [ apply launches_timed_other; intros; discriminate
          | match goal with
            | |- launches_timed (if ?c then _ else _) => destruct c
            end;
            [ apply launches_timed_other; intros; discriminate
            | apply launches_timed_nil ] ] ] ].

Section Lease.

Variable env : World.

(** What [launch_workload] sends: the clock is read, and the request that
    follows carries that reading plus 3600. *)
Lemma launch_workload_trace ty s :
  ∃ rest, trace (snd (launch_workload env ty s)) =
    trace s ++ [ReadClock (clock env (clock_reads s));
                PostLaunch ty (clock env (clock_reads s) + 3600)] ++ rest
    ∧ launch_types rest = [].
Proof.
  unfold launch_workload. unwrap. steps.
  destruct (launch_replies env (launches s)) as [r|d]; proj; steps;
    [destruct (status_code r =? 200); steps|]; finish;
    (eexists; rewrite <- !app_assoc; split; [reflexivity|]);
    destruct (cleared_during env (blocking_ops s)); reflexivity.
Qed.

Lemma timed_launch_workload ty : preserves timed (launch_workload env ty).
Proof.
  intros s H. destruct (launch_workload_trace ty s) as (rest & E & Hrest).
  unfold timed. rewrite E.
  apply launches_timed_app; [exact H|].
  apply (launches_timed_app [_; _]); [apply launches_timed_request|].
  apply launches_timed_quiet, Hrest.
Qed.

Lemma timed_start_node_monitoring n : preserves timed (start_node_monitoring n).
Proof. unfold start_node_monitoring. unwrap. pres; timed_update. Qed.

Lemma timed_launch_replacement c d i :
  preserves timed (launch_replacement env c d i).
Proof.
  unfold launch_replacement. unwrap. pres;
    try apply timed_launch_workload; try apply timed_start_node_monitoring;
    timed_update.
Qed.

Lemma timed_ensure : preserves timed (ensure_target_node_count env).
Proof.
  unfold ensure_target_node_count. unwrap. pres;
    try apply timed_launch_replacement; timed_update.
Qed.

Lemma timed_stop_workload id : preserves timed (stop_workload env id).
Proof. unfold stop_workload. unwrap. pres; timed_update. Qed.

Lemma timed_remove n : preserves timed (remove_failed_node env n).
Proof.
  unfold remove_failed_node. unwrap. pres;
    try apply timed_stop_workload; try apply timed_ensure; timed_update.
Qed.

Lemma timed_check_node_health h : preserves timed (check_node_health env h).
Proof. unfold check_node_health. unwrap. pres; timed_update. Qed.

Lemma timed_health_retries h l : preserves timed (health_retries env h l).
Proof.
  induction l as [|i l IH]; cbn [health_retries]; unwrap; pres;
    try apply timed_check_node_health; try apply IH; timed_update.
Qed.

Lemma timed_get_running_workloads : preserves timed (get_running_workloads env).
Proof. unfold get_running_workloads. unwrap. pres; timed_update. Qed.

Lemma timed_monitor_cycle n : preserves timed (monitor_cycle env n).
Proof.
  unfold monitor_cycle. unwrap. pres;
    try apply timed_get_running_workloads; try apply timed_health_retries;
    try apply timed_remove; try apply timed_ensure; timed_update.
Qed.

Lemma timed_monitor_loop fuel n : preserves timed (monitor_loop env fuel n).
Proof.
  induction fuel as [|fuel IH]; cbn [monitor_loop]; pres;
    try apply timed_monitor_cycle; try apply IH.
Qed.

Lemma timed_monitor_node fuel n : preserves timed (monitor_node env fuel n).
Proof.
  unfold monitor_node. unwrap. pres;
    try apply timed_check_node_health; try apply timed_monitor_loop;
    timed_update.
Qed.

Lemma timed_stop_all : preserves timed (stop_all_workloads env).
Proof.
  unfold stop_all_workloads, stop_one. unwrap. pres;
    try apply timed_stop_workload; timed_update.
Qed.

Lemma timed_launch_nodes n k ty : preserves timed (launch_nodes env n k ty).
Proof.
  unfold launch_nodes, launch_one. unwrap. pres;
    try apply timed_launch_workload; try apply timed_start_node_monitoring;
    try apply timed_ensure; timed_update.
Qed.

Lemma timed_main args : preserves timed (main env args).
Proof.
  unfold main. unwrap. pres;
    try apply timed_launch_nodes; try apply timed_stop_all; timed_update.
Qed.

(** C10.  Every launch request of a run of [main] and of a run of a monitor
    thread carries as expiration the reading of the clock taken for that
    launch plus 3600 seconds, whatever the command line is; and [main] does
    the same whatever the value of [--runtime] is: that argument is never
    read. *)
Theorem lease_is_launch_time_plus_3600 (args : Args) :
  (∀ s, launches_timed (trace s) ->
        launches_timed (trace (snd (main env args s))))
  ∧ (∀ fuel n s, launches_timed (trace s) ->
        launches_timed (trace (snd (monitor_node env fuel n s))))
  ∧ (∀ r s, main env (with_runtime r args) s = main env args s).
Proof.
  split; [|split].
  - intros s H. apply (timed_main args s H).
  - intros fuel n s H. apply (timed_monitor_node fuel n s H).
  - intros r s. reflexivity.
Qed.

End Lease.

Lemma lease_is_launch_time_plus_3600_witness :
  launches_timed (trace (snd (main (calm []) two_nodes (initial_state 30)))).
Proof.
  apply (proj1 (lease_is_launch_time_plus_3600 (calm []) two_nodes)).
  intros i ty exp H. discriminate H.
Defined.

(** * Reconciliation at the target (C6) *)

Section Reconcile.

Variable env : World.

(** C6.  [ensure_target_node_count] does nothing when [keep_running] is
    false, and nothing when the fleet has reached [target_node_count]: it
    returns the size of the fleet and leaves the whole state as it was (no
    launch request, [active_nodes] unchanged); so does calling it any number
    of times. *)
Theorem reconcile_without_deficit_is_noop (s : State) :
  keep_running s = false ∨ target_node_count s <= len (active_nodes s) ->
  ensure_target_node_count env s = (Ok (len (active_nodes s)), s)
  ∧ ∀ k : nat,
      Nat.iter k (fun st => snd (ensure_target_node_count env st)) s = s.
Proof.
  intros H.
  assert (E : ensure_target_node_count env s = (Ok (len (active_nodes s)), s)).
  { unfold ensure_target_node_count. steps.
    destruct (keep_running s) eqn:K; cbn [negb]; steps.
    - destruct H as [H|H]; [discriminate|].
      apply Z.ltb_ge in H. rewrite H. steps. reflexivity.
    - reflexivity. }
  split; [exact E|].
  induction k as [|k IH]; [reflexivity|].
  rewrite Nat.iter_succ, IH, E. reflexivity.
Qed.

End Reconcile.

Lemma reconcile_without_deficit_is_noop_witness :
  ensure_target_node_count (calm []) (fleet_of [node1; node2] true)
  = (Ok 2, fleet_of [node1; node2] true).
Proof.
  apply (proj1 (reconcile_without_deficit_is_noop (calm [])
                  (fleet_of [node1; node2] true) (or_intror (Z.le_refl 2)))).
Defined.

(** * Leaving the monitor loop (C5) *)

(** The claim C5 as it is stated fails: the flag is read at the head of the
    loop only.  Here it is cleared after that, during the cycle; the monitor
    then still stops its node, deletes it and launches a replacement. *)
Lemma monitor_acts_after_flag_cleared :
  let s' := snd (monitor_node late_interrupt 5 node1 (fleet_of [node1] true)) in
  should_monitor s' = false
  ∧ stop_requests (after_flag (trace s')) = ["w1"]
  ∧ launch_types (after_flag (trace s')) = ["ollama_webui:fast"]
  ∧ active_nodes s' =
      [{| node := "n0"; workload := "id0"; type := "ollama_webui:fast";
          expires := 4600 |}].
Proof. vm_compute. repeat split. Qed.

Section Leave.

Variable env : World.

Lemma check_node_health_flag host s :
  should_monitor s = false ->
  let s' := snd (check_node_health env host s) in
  should_monitor s' = false ∧ active_nodes s' = active_nodes s
  ∧ stops s' = stops s ∧ launches s' = launches s.
Proof.
  intros H. unfold check_node_health. unwrap. steps.
  destruct (health_replies env (probes s)); steps; finish; rewrite H; auto.
Qed.

(** C5, amended.  A monitor that finds [should_monitor] false when it
    evaluates the condition of its loop leaves the loop there, whatever the
    health of its node: the state is untouched, so no stop request is sent,
    nothing is deleted from [active_nodes] and nothing is launched.  A monitor
    thread that starts with the flag false only makes its initial probe. *)
Theorem monitor_leaves_at_cleared_flag (fuel : nat) (n : NodeInfo) (s : State) :
  should_monitor s = false ->
  monitor_loop env (S fuel) n s = (Ok true, s)
  ∧ let out := monitor_node env (S fuel) n s in
    fst out = Ok true
    ∧ active_nodes (snd out) = active_nodes s
    ∧ stops (snd out) = stops s
    ∧ launches (snd out) = launches s.
Proof.
  intros H.
  assert (L : ∀ st, should_monitor st = false ->
                    monitor_loop env (S fuel) n st = (Ok true, st)).
  { intros st Hst. cbn [monitor_loop]. steps. rewrite Hst. reflexivity. }
  split; [apply L, H|].
  assert (R : ∃ s', monitor_node env (S fuel) n s = (Ok true, s')
                    ∧ active_nodes s' = active_nodes s
                    ∧ stops s' = stops s ∧ launches s' = launches s).
  { unfold monitor_node. unwrap. steps.
    set (s1 := add_event _ s).
    destruct (check_node_health_flag (node n) s1 H) as (F & A & St & La).
    destruct (check_node_health env (node n) s1) as [[b|e] s2] eqn:E.
    - erewrite run_bind_ok by exact E. cbn [snd] in *.
      destruct b; steps;
        (erewrite run_bind_ok by (apply L; proj; exact F));
        steps; finish; eexists; (split; [reflexivity|]); proj; auto.
    - exfalso. revert E. subst s1. unfold check_node_health. unwrap. steps.
      destruct (health_replies env (probes s)); steps; finish;
        intros X; discriminate X. }
  destruct R as (s' & -> & A & St & La). cbn [fst snd]. auto.
Qed.

End Leave.

Lemma monitor_leaves_at_cleared_flag_witness :
  monitor_loop late_interrupt 3 node1
    (with_should_monitor false (fleet_of [node1] true))
  = (Ok true, with_should_monitor false (fleet_of [node1] true)).
Proof.
  apply (proj1 (monitor_leaves_at_cleared_flag late_interrupt 2 node1
                  (with_should_monitor false (fleet_of [node1] true))
                  eq_refl)).
Defined.

(** * A failed list call (C1) *)

(** C1 fails on the code.  [get_running_workloads] turns a response that is
    not 200 into the empty list, which [monitor_node] reads as "the node is
    not listed": the healthy node is dropped from [active_nodes] in the first
    cycle, without a health check of that cycle, and the monitor ends. *)
Theorem list_failure_removes_healthy_node :
  let out := monitor_node outage 5 node1 (fleet_of [node1] false) in
  list_replies outage 0 = refused 503 []
  ∧ healthy (health_replies outage 1) = true
  ∧ fst out = Ok true
  ∧ active_nodes (snd out) = []
  ∧ trace (snd out) =
      [Log INFO "Starting monitoring thread for node {node_hostname} ({node_type})"
           [VStr "h1"; VStr "ollama_webui:fast"];
       GetNode "h1";
       Log INFO "Node {node_hostname} is up and running" [VStr "h1"];
       PostWorkloads;
       Log ERROR "Error getting workloads: {response.status_code}" [VInt 503];
       Log ERROR "{response.text}" [VStr "error"];
       Log WARNING
           "Node {node_hostname} (ID: {node_id}) is no longer in workloads response, considering it removed"
           [VStr "h1"; VStr "w1"];
       Log INFO "Monitoring stopped for node {node_hostname}" [VStr "h1"]].
Proof. vm_compute. repeat split. Qed.

(** * Stopping the whole fleet (C9) *)

(** C9 fails on the code.  Of a fleet of 3, the stop request for the second
    node raises inside [requests.post]: nothing in [stop_workload] or
    [stop_all_workloads] catches it, so the failure is not logged, the third
    node gets no stop request and [stop_all_workloads] raises.  The same
    happens after a stop that succeeded, when the time in its answer cannot
    be rendered for the log line (here: milliseconds instead of seconds). *)
Theorem unreachable_stop_aborts_stop_all :
  let s := fleet_of [node1; node2; node3] false in
  let out := stop_all_workloads second_stop_unreachable s in
  let late := stop_all_workloads stop_in_milliseconds s in
  fst out = Raised (RequestException "connection reset")
  ∧ trace (snd out) =
      [Log INFO "Stopping all {len(active_nodes)} active workloads..." [VInt 3];
       Log INFO "Stopping {node_hostname} (ID: {node_id})..."
           [VStr "h1"; VStr "w1"];
       PostStop "w1";
       Log INFO
           "Successfully stopped {node_hostname} at {stopped_time} (Refund: {refund})"
           [VStr "h1"; VInt 2000; VInt 1];
       Log INFO "Stopping {node_hostname} (ID: {node_id})..."
           [VStr "h2"; VStr "w2"];
       PostStop "w2"]
  ∧ fst late = Raised (FromTimestampError (Some 1700000000000))
  ∧ stop_requests (trace (snd late)) = ["w1"].
Proof. vm_compute. repeat split. Qed.

Lemma own_events_app l l' : own_events (l ++ l') = own_events l ++ own_events l'.
Proof. apply filter_app. Qed.

Lemma own_events_flag (c : bool) : own_events (if c then [FlagCleared] else []) = [].
Proof. destruct c; reflexivity. Qed.

Section StopAll.
Variable env : World.

(** One iteration of the loop of [stop_all_workloads], whatever the answer. *)
Lemma stop_one_any n s :
  ∃ res s' evs, stop_one env n s = (res, s')
    ∧ trace s' = trace s ++ evs
    ∧ stop_requests evs = [workload n]
    ∧ globals s' = globals s
    ∧ stops s' = S (stops s)
    ∧ match stop_replies env (stops s) with
      | Replied r =>
          if reportable env r
          then res = Ok tt ∧ own_events evs = stop_report n r
          else res = Raised (FromTimestampError (stopped (json r)))
      | Failed d => res = Raised (RequestException d)
      end.
Proof.
  unfold stop_one, stop_workload. unwrap. steps.
  destruct (stop_replies env (stops s)) as [r|d]; proj; steps;
    unfold reportable, stop_report.
  2:{ finish. eexists. eexists. eexists. split; [reflexivity|]. proj.
      rewrite <- ?app_assoc. split; [reflexivity|].
      destruct (cleared_during env (blocking_ops s)); repeat split. }
  destruct (status_code r =? 200); steps; cbn [negb orb].
  2:{ finish. eexists. eexists. eexists. split; [reflexivity|]. proj.
      rewrite <- ?app_assoc. split; [reflexivity|].
      destruct (cleared_during env (blocking_ops s)); repeat split. }
  destruct (nonempty (json r)); cbn [negb orb].
  2:{ finish. eexists. eexists. eexists. split; [reflexivity|]. proj.
      rewrite <- ?app_assoc. split; [reflexivity|].
      destruct (cleared_during env (blocking_ops s)); repeat split. }
  destruct (stopped (json r)) as [t|]; [destruct (renders env t)|];
    steps; finish;
    (eexists; eexists; eexists; split; [reflexivity|]); proj;
    rewrite <- ?app_assoc; (split; [reflexivity|]);
    destruct (cleared_during env (blocking_ops s)); repeat split.
Qed.

Lemma stop_one_run n r s :
  stop_replies env (stops s) = Replied r ->
  reportable env r = true ->
  ∃ s' evs, stop_one env n s = (Ok tt, s')
    ∧ trace s' = trace s ++ evs
    ∧ own_events evs = stop_report n r
    ∧ stop_requests evs = [workload n]
    ∧ active_nodes s' = active_nodes s
    ∧ stops s' = S (stops s).
Proof.
  intros H Hr.
  destruct (stop_one_any n s) as (res & s' & evs & E & T & R & G & St & O).
  rewrite H, Hr in O. destruct O as (-> & O).
  exists s', evs. unfold globals in G. injection G as A _ _ _ _ _ _.
  auto 10.
Qed.

Lemma stop_loop_run nodes : ∀ replies s,
  length replies = length nodes ->
  (∀ (k : nat) r, replies !! k = Some r ->
     stop_replies env (stops s + k)%nat = Replied r ∧ reportable env r = true) ->
  ∃ s' evs, for_each nodes (stop_one env) s = (Ok tt, s')
    ∧ trace s' = trace s ++ evs
    ∧ own_events evs = concat (zip_with stop_report nodes replies)
    ∧ stop_requests evs = workload <$> nodes
    ∧ active_nodes s' = active_nodes s.
Proof.
  induction nodes as [|n nodes IH]; intros replies s Hlen Hrep.
  - exists s, []. destruct replies; [|discriminate].
    rewrite app_nil_r. repeat split.
  - destruct replies as [|r replies]; [discriminate|].
    destruct (Hrep 0%nat r eq_refl) as (Hr0 & Hp0).
    destruct (stop_one_run n r s) as (s1 & evs1 & E1 & T1 & O1 & R1 & A1 & S1).
    { rewrite <- Hr0. f_equal. lia. }
    { exact Hp0. }
    destruct (IH replies s1) as (s2 & evs2 & E2 & T2 & O2 & R2 & A2).
    { cbn in Hlen. lia. }
    { intros k r' Hk. rewrite S1. destruct (Hrep (S k) r' Hk) as (Hr & Hp).
      split; [|exact Hp]. rewrite <- Hr. f_equal. lia. }
    exists s2, (evs1 ++ evs2). unfold for_each in *. cbn [for_fold].
    rewrite (run_bind_ok _ _ _ _ _ E1).
    split; [exact E2|].
    split; [rewrite T2, T1, app_assoc; reflexivity|].
    split; [rewrite own_events_app, O1, O2; reflexivity|].
    split; [unfold stop_requests in *; rewrite omap_app, R1, R2; reflexivity|].
    congruence.
Qed.

(** X12.  When every stop request is answered, and every answer can be reported,
    [stop_all_workloads] sends one stop request for every node of
    [active_nodes], in order: a stop that is answered with another status
    than 200 is logged as failed and the loop goes on to the next node; each
    node gets its own success or failure line, and the function returns
    normally. *)
Lemma stop_all_reaches_every_node (s : State) (replies : list (Response StopBody)) :
  length replies = length (active_nodes s) ->
  (∀ (k : nat) r, replies !! k = Some r ->
     stop_replies env (stops s + k)%nat = Replied r ∧ reportable env r = true) ->
  ∃ s' evs, stop_all_workloads env s = (Ok tt, s')
    ∧ trace s' = trace s ++ evs
    ∧ stop_requests evs = workload <$> active_nodes s
    ∧ own_events evs =
        [Log INFO "Stopping all {len(active_nodes)} active workloads..."
             [VInt (len (active_nodes s))]]
        ++ concat (zip_with stop_report (active_nodes s) replies)
        ++ [Log INFO "All workloads stopped" []]
    ∧ active_nodes s' = active_nodes s.
Proof.
  intros Hlen Hrep. unfold stop_all_workloads. unwrap. steps.
  destruct (stop_loop_run (active_nodes s) replies
              (add_event (Log INFO "Stopping all {len(active_nodes)} active workloads..."
                 [VInt (len (active_nodes s))]) s) Hlen)
    as (s1 & evs1 & E1 & T1 & O1 & R1 & A1).
  { proj. exact Hrep. }
  rewrite (run_bind_ok _ _ _ _ _ E1). finish. proj.
  eexists. eexists. split; [reflexivity|]. proj.
  rewrite T1. proj. rewrite <- !app_assoc.
  split; [reflexivity|].
  split. { unfold stop_requests in *. cbn [omap list_omap app]. rewrite omap_app, R1. cbn. rewrite app_nil_r. reflexivity. }
  split. { rewrite !own_events_app, O1. reflexivity. }
  exact A1.
Qed.
End StopAll.

Lemma stop_all_reaches_every_node_witness :
  ∃ s' evs, stop_all_workloads one_stop_fails (fleet_of [node1; node2; node3] false) = (Ok tt, s')
    ∧ trace s' = [] ++ evs
    ∧ stop_requests evs = ["w1"; "w2"; "w3"].
Proof.
  destruct (stop_all_reaches_every_node one_stop_fails
              (fleet_of [node1; node2; node3] false)
              [ {| status_code := 200; text := "OK"; json := stopped_at 2000 |};
                {| status_code := 500; text := "error"; json := stopped_at 0 |};
                {| status_code := 200; text := "OK"; json := stopped_at 2000 |} ]
              eq_refl)
    as (s' & evs & E & T & R & _).
  - intros [|[|[|k]]] r H; cbn in H; try discriminate;
      injection H as <-; split; reflexivity.
  - exists s', evs. auto.
Defined.

(** * What a function may send *)

Lemma added_refl Q s : added Q (trace s) s.
Proof. exists []. rewrite app_nil_r. split; [reflexivity | constructor]. Qed.

Lemma added_event Q t0 e s : Q e -> added Q t0 s -> added Q t0 (add_event e s).
Proof.
  intros He (evs & E & F). exists (evs ++ [e]). proj. rewrite E, app_assoc.
  split; [reflexivity|]. apply Forall_app. split; [exact F|]. repeat constructor. exact He.
Qed.

Ltac added_update HQ :=
  proj;
  first
    [ assumption
    | apply added_event; [ first [ apply HQ; reflexivity | auto ] | assumption ]
    | match goal with
      | H : added ?Q ?t0 ?s |- added ?Q ?t0 _ =>
          let evs := fresh "evs" in let E := fresh "E" in let F := fresh "F" in
          destruct H as (evs & E & F); unfold added; proj;
          match goal with
          | |- context [if ?c then _ else _] => destruct c
          end;
          [ exists (evs ++ [FlagCleared]); rewrite E, app_assoc;
            split; [reflexivity|]; apply Forall_app; split; [exact F|];
            repeat constructor; apply HQ; reflexivity
          | exists evs; rewrite app_nil_r; split; assumption ]
      | H : added ?Q ?t0 ?s |- added ?Q ?t0 _ =>
          let evs := fresh "evs" in let E := fresh "E" in let F := fresh "F" in
          destruct H as (evs & E & F); exists evs; proj; split; assumption
      end ].

Section Emits.
Variable env : World.
Variable Q : Event -> Prop.
Hypothesis HQ : ∀ e, reconcile_event e = true -> Q e.
Variable t0 : list Event.

Lemma launch_workload_added ty : preserves (added Q t0) (launch_workload env ty).
Proof. unfold launch_workload. unwrap. pres; added_update HQ. Qed.

Lemma start_node_monitoring_added n : preserves (added Q t0) (start_node_monitoring n).
Proof. unfold start_node_monitoring. unwrap. pres; added_update HQ. Qed.

Lemma launch_replacement_added c d i : preserves (added Q t0) (launch_replacement env c d i).
Proof.
  unfold launch_replacement. unwrap. pres;
    try apply launch_workload_added; try apply start_node_monitoring_added;
    added_update HQ.
Qed.

Lemma ensure_added : preserves (added Q t0) (ensure_target_node_count env).
Proof.
  unfold ensure_target_node_count. unwrap. pres;
    try apply launch_replacement_added; added_update HQ.
Qed.
End Emits.

(** * Health checks *)

Lemma probed_refl host s : probed host 0 s s.
Proof.
  split; try reflexivity; [lia|].
  exists []. rewrite app_nil_r. repeat split.
Qed.

Lemma probed_trans host k1 k2 s s1 s2 :
  probed host k1 s s1 -> probed host k2 s1 s2 -> probed host (k1 + k2) s s2.
Proof.
  intros [G1 L1 S1 I1 C1 P1 (e1 & T1 & H1 & R1 & Y1)]
         [G2 L2 S2 I2 C2 P2 (e2 & T2 & H2 & R2 & Y2)].
  split; try congruence; [lia|].
  exists (e1 ++ e2). rewrite T2, T1, app_assoc. split; [reflexivity|].
  unfold health_requests, stop_requests, launch_types in *.
  rewrite !omap_app, H1, H2, R1, R2, Y1, Y2, replicate_add. repeat split.
Qed.

Lemma probed_log host k s s' lvl template args :
  probed host k s s' -> probed host k s (add_event (Log lvl template args) s').
Proof.
  intros [G L S I C P (evs & T & H & R & Y)].
  split; proj; try assumption.
  exists (evs ++ [Log lvl template args]). rewrite T, app_assoc.
  split; [reflexivity|].
  unfold health_requests, stop_requests, launch_types in *.
  rewrite !omap_app, H, R, Y. cbn. rewrite app_nil_r. repeat split.
Qed.

Section Health.
Variable env : World.

Lemma check_node_health_run host s :
  ∃ s', check_node_health env host s
        = (Ok (healthy (health_replies env (probes s))), s')
      ∧ probed host 1 s s'.
Proof.
  unfold check_node_health. unwrap. steps.
  destruct (health_replies env (probes s)) as [r|d]; steps; finish;
    (eexists; split; [reflexivity|]);
    (split; proj; try reflexivity; [lia|]);
    (eexists; rewrite <- !app_assoc; split; [reflexivity|]);
    destruct (cleared_during env (blocking_ops s)); repeat split.
Qed.

End Health.

(** * One cycle of a monitor *)

Lemma health_requests_none evs :
  Forall not_probe evs -> health_requests evs = [].
Proof.
  induction 1 as [|e evs He _ IH]; [reflexivity|].
  unfold health_requests in *. cbn [omap list_omap]. rewrite IH.
  destruct e; try reflexivity. destruct (He host eq_refl).
Qed.

Lemma stop_requests_none evs :
  Forall not_stop evs -> stop_requests evs = [].
Proof.
  induction 1 as [|e evs He _ IH]; [reflexivity|].
  unfold stop_requests in *. cbn [omap list_omap]. rewrite IH.
  destruct e; try reflexivity. destruct (He id eq_refl).
Qed.

Lemma range_3 : range 3 = [0; 1; 2].
Proof. reflexivity. Qed.

(** C4 fails on the code when the polling interval is negative, which the
    value taken from the environment (line 25) may be: the node is listed
    and its health check succeeds at the first attempt, the cycle is logged
    as healthy, and [time.sleep] then raises.  The monitor does not go on
    looping: its thread ends, while the healthy node is still in the fleet
    and the shutdown flag is still set. *)
Theorem negative_poll_ends_healthy_monitor :
  let s := with_WORKLOAD_POLL (-5) (fleet_of [node1] false) in
  let out := monitor_node (calm [node1]) 5 node1 s in
  healthy (health_replies (calm [node1]) 1) = true
  ∧ fst (monitor_cycle (calm [node1]) node1 s)
    = Raised (ValueError "sleep length must be non-negative")
  ∧ fst out = Raised (ValueError "sleep length must be non-negative")
  ∧ active_nodes (snd out) = [node1]
  ∧ should_monitor (snd out) = true
  ∧ trace (snd out) =
      [Log INFO "Starting monitoring thread for node {node_hostname} ({node_type})"
           [VStr "h1"; VStr "ollama_webui:fast"];
       GetNode "h1";
       Log INFO "Node {node_hostname} is up and running" [VStr "h1"];
       PostWorkloads;
       GetNode "h1";
       Log INFO "Node {node_hostname} is healthy" [VStr "h1"]].
Proof. vm_compute. repeat split. Qed.

Section Cycle.
Variable env : World.

Lemma stop_workload_added Q t0 id :
  (∀ e, reconcile_event e = true -> Q e) -> Q (PostStop id) ->
  preserves (added Q t0) (stop_workload env id).
Proof. intros HQ Hs. unfold stop_workload. unwrap. pres; added_update HQ. Qed.

Lemma remove_failed_node_added Q t0 n :
  (∀ e, reconcile_event e = true -> Q e) -> Q (PostStop (workload n)) ->
  preserves (added Q t0) (remove_failed_node env n).
Proof.
  intros HQ Hs. unfold remove_failed_node. unwrap. pres;
    try (apply stop_workload_added; assumption);
    try (apply ensure_added; assumption); added_update HQ.
Qed.




End Cycle.


(** * Death of a node (C7) *)


Section Death.
Variable env : World.








End Death.


(** * The types of the launches (C2) *)

Lemma policy_agrees setting idx :
  (if String.eqb setting "alternate" then
     if idx mod 2 =? 0 then "ollama_webui:fast" else "ollama_webui:large"
   else ("ollama_webui:" +:+ setting))
  = type_policy setting idx.
Proof.
  unfold type_policy. destruct (String.eqb setting "alternate"); [|reflexivity].
  rewrite Zmod_even. destruct (Z.even idx); reflexivity.
Qed.

Lemma range_lookup n (i : nat) z : range n !! i = Some z -> z = Z.of_nat i.
Proof.
  unfold range. rewrite list_lookup_fmap. intros H.
  destruct (seq 0 (Z.to_nat n) !! i) as [j|] eqn:E; [|discriminate].
  apply lookup_seq in E as [-> _]. cbn in H. injection H as <-. reflexivity.
Qed.

Lemma length_range n : length (range n) = Z.to_nat n.
Proof. unfold range. rewrite length_fmap, length_seq. reflexivity. Qed.

Section Types.
Variable env : World.

(** A loop whose every iteration sends exactly one launch request. *)
Lemma for_fold_launch_types {A L} (f : A -> string) (I : State -> Prop)
    (body : A -> L -> M L) :
  (∀ x acc s, I s ->
     ∃ evs, trace (snd (body x acc s)) = trace s ++ evs
            ∧ launch_types evs = [f x] ∧ I (snd (body x acc s))) ->
  ∀ l acc s, I s ->
    ∃ (k : nat) evs, (k <= length l)%nat
      ∧ trace (snd (for_fold l acc body s)) = trace s ++ evs
      ∧ launch_types evs = f <$> take k l
      ∧ (∀ a, fst (for_fold l acc body s) = Ok a -> k = length l)
      ∧ (k < length l -> ∃ e, fst (for_fold l acc body s) = Raised e)%nat.
Proof.
  intros Hbody. induction l as [|x l IH]; intros acc s Hs; cbn [for_fold].
  - exists 0%nat, []. rewrite app_nil_r. repeat split; cbn; lia.
  - destruct (Hbody x acc s Hs) as (e1 & T1 & Y1 & I1). unfold bind.
    destruct (body x acc s) as [[a|e] s1]; cbn [fst snd] in *.
    + destruct (IH a s1 I1) as (k & e2 & Hk & T2 & Y2 & Hok & Hr).
      exists (S k), (e1 ++ e2). split; [cbn; lia|].
      split; [rewrite T2, T1, app_assoc; reflexivity|].
      split; [unfold launch_types in *; rewrite omap_app, Y1, Y2; reflexivity|].
      split; [intros b Hb; cbn; f_equal; eapply Hok, Hb|].
      intros Hlt. apply Hr. cbn in Hlt. lia.
    + exists 1%nat, e1. split; [cbn; lia|]. split; [exact T1|].
      split; [rewrite Y1; cbn; rewrite take_0; reflexivity|].
      split; [discriminate|]. intros _. exists e. reflexivity.
Qed.

Lemma launch_one_types N ty i acc s :
  ∃ evs, trace (snd (launch_one env N ty i acc s)) = trace s ++ evs
         ∧ launch_types evs = [type_policy ty i] ∧ True.
Proof.
  unfold launch_one, launch_workload. rewrite policy_agrees. unwrap. steps.
  destruct (launch_replies env (launches s)) as [r|d]; proj; steps;
    [destruct (status_code r =? 200); steps|]; finish;
    (eexists; rewrite <- !app_assoc; split; [reflexivity|]);
    (split; [|exact Logic.I]);
    repeat match goal with
           | |- context [if cleared_during ?e ?n then _ else _] =>
               destruct (cleared_during e n)
           end; reflexivity.
Qed.

Lemma launch_replacement_types c d i s :
  ∃ evs, trace (snd (launch_replacement env c d i s)) = trace s ++ evs
         ∧ launch_types evs = [type_policy (node_type_setting s) (c + i)]
         ∧ node_type_setting (snd (launch_replacement env c d i s))
           = node_type_setting s.
Proof.
  unfold launch_replacement, launch_workload, start_node_monitoring.
  unwrap. steps. rewrite policy_agrees.
  destruct (launch_replies env (launches s)) as [r|dd]; proj; steps;
    [destruct (status_code r =? 200); steps|]; finish;
    (eexists; rewrite <- !app_assoc; split; [reflexivity|]);
    (split; [|reflexivity]);
    repeat match goal with
           | |- context [if cleared_during ?e ?n then _ else _] =>
               destruct (cleared_during e n)
           end; reflexivity.
Qed.

Lemma grows {A} (m : M A) s :
  preserves (added (fun _ => True) (trace s)) m ->
  ∃ evs, trace (snd (m s)) = trace s ++ evs.
Proof.
  intros Hp. destruct (Hp s (added_refl _ s)) as (evs & T & _).
  exists evs. exact T.
Qed.

Lemma ensure_launch_types s :
  let c := len (active_nodes s) in
  ∃ res s' evs,
    ensure_target_node_count env s = (res, s')
    ∧ trace s' = trace s ++ evs
    ∧ (∀ (i : nat) t, launch_types evs !! i = Some t ->
         keep_running s = true ∧ c + Z.of_nat i < target_node_count s
         ∧ t = type_policy (node_type_setting s) (c + Z.of_nat i))
    ∧ (∀ a, res = Ok a -> keep_running s = true ->
         length (launch_types evs) = Z.to_nat (target_node_count s - c)).
Proof.
  intros c. unfold ensure_target_node_count. steps.
  destruct (keep_running s) eqn:K; cbn [negb]; steps.
  2:{ finish. eexists. eexists. exists []. split; [reflexivity|].
      rewrite app_nil_r. split; [reflexivity|].
      split; [intros i t H; discriminate | intros; discriminate]. }
  fold c. destruct (c <? target_node_count s) eqn:D; steps.
  2:{ finish. eexists. eexists. exists []. split; [reflexivity|].
      rewrite app_nil_r. split; [reflexivity|].
      split; [intros i t H; discriminate|]. intros _ _ _.
      apply Z.ltb_ge in D. cbn. lia. }
  unfold logger_info at 1. unfold emit. steps.
  set (d := target_node_count s - c).
  set (s1 := add_event _ s).
  destruct (for_fold_launch_types
              (fun i => type_policy (node_type_setting s) (c + i))
              (fun st => node_type_setting st = node_type_setting s)
              (fun x (_ : unit) => launch_replacement env c d x)) with
    (l := range d) (acc := tt) (s := s1)
    as (k & evs & Hk & T & Y & Hok & _).
  { intros x acc st Hst.
    destruct (launch_replacement_types c d x st) as (e & Te & Ye & Se).
    exists e. rewrite <- Hst. split; [exact Te|]. split; [exact Ye|].
    rewrite Se. reflexivity. }
  { reflexivity. }
  unfold for_each. unfold bind at 1.
  destruct (for_fold (range d) tt _ s1) as [[[]|e] s2]; cbn [fst snd] in *;
    finish;
    (eexists; eexists;
     exists (Log INFO
       "Current node count ({current_count}) is below target ({target_node_count}). Launching {nodes_to_add} additional nodes..."
       [VInt c; VInt (target_node_count s); VInt d] :: evs));
    (split; [reflexivity|]);
    (split; [rewrite T; subst s1; proj; rewrite <- app_assoc; reflexivity|]);
    change (launch_types (_ :: evs)) with (launch_types evs); rewrite Y;
    (split;
     [ intros i t Hi; rewrite list_lookup_fmap in Hi;
       destruct (take k (range d) !! i) as [z|] eqn:Ez; [|discriminate];
       injection Hi as <-;
       pose proof (lookup_lt_Some _ _ _ Ez) as Hlt;
       rewrite length_take, length_range in Hlt;
       rewrite lookup_take_lt in Ez by lia;
       apply range_lookup in Ez; subst z; subst d;
       repeat split; lia
     | ]).
  - intros a _ _. rewrite length_fmap, length_take, length_range.
    rewrite (Hok tt eq_refl), length_range. lia.
  - intros a Ha. discriminate.
Qed.

Lemma launch_nodes_launch_types N keep ty s :
  ∃ res s' evs,
    launch_nodes env N keep ty s = (res, s')
    ∧ trace s' = trace s ++ evs
    ∧ (∀ (i : nat) t, (i < Z.to_nat N)%nat ->
         launch_types evs !! i = Some t -> t = type_policy ty (Z.of_nat i))
    ∧ (∀ a, res = Ok a -> (Z.to_nat N <= length (launch_types evs))%nat).
Proof.
  unfold launch_nodes. unwrap. steps.
  match goal with
  | |- context [bind (for_fold _ _ _) _ ?st] => set (s1 := st)
  end.
  assert (T1 : ∃ pre, trace s1 = trace s ++ pre ∧ launch_types pre = []).
  { subst s1. proj. rewrite <- !app_assoc. eexists. split; reflexivity. }
  destruct T1 as (pre & T1 & Y1).
  destruct (for_fold_launch_types (type_policy ty) (fun _ => True)
              (launch_one env N ty)) with
    (l := range N) (acc := @nil NodeInfo) (s := s1)
    as (k & evs & Hk & T & Y & Hok & Hr).
  { intros x acc st _. apply launch_one_types. }
  { exact Logic.I. }
  assert (Hlook : ∀ (i : nat) t,
            (type_policy ty <$> take k (range N)) !! i = Some t ->
            t = type_policy ty (Z.of_nat i)).
  { intros i t Hi. rewrite list_lookup_fmap in Hi.
    destruct (take k (range N) !! i) as [z|] eqn:Ez; [|discriminate].
    injection Hi as <-.
    pose proof (lookup_lt_Some _ _ _ Ez) as Hlt. rewrite length_take in Hlt.
    rewrite lookup_take_lt in Ez by lia.
    apply range_lookup in Ez. subst z. reflexivity. }
  unfold bind at 1.
  destruct (for_fold (range N) [] (launch_one env N ty) s1)
    as [[acc|e] s2]; cbn [fst snd] in *.
  - specialize (Hok acc eq_refl). subst k. rewrite length_range in *.
    match goal with
    | |- ∃ res s' evs', ?m s2 = (res, s') ∧ _ =>
        destruct (grows m s2) as (evs2 & T2);
        [| exists (fst (m s2)), (snd (m s2)), (pre ++ evs ++ evs2);
           split; [apply surjective_pairing|] ]
    end.
    { unfold start_node_monitoring. unwrap.
      pres; try (apply ensure_added; auto);
        added_update (fun (e : Event) (_ : reconcile_event e = true) => Logic.I). }
    split; [rewrite T2, T, T1, <- !app_assoc; reflexivity|].
    unfold launch_types in *. rewrite !omap_app, Y1, Y. cbn [app].
    rewrite firstn_all2 in * by (rewrite length_range; lia).
    split.
    + intros i t Hi Ht. apply Hlook.
      rewrite lookup_app_l in Ht; [exact Ht|].
      rewrite length_fmap, length_range. exact Hi.
    + intros _ _. rewrite length_app, length_fmap, length_range. lia.
  - exists (Raised e), s2, (pre ++ evs). split; [reflexivity|].
    split; [rewrite T, T1, <- app_assoc; reflexivity|].
    unfold launch_types in *. rewrite omap_app, Y1, Y. cbn [app].
    split; [intros i t _; apply Hlook | discriminate].
Qed.

(** C2.  The type requested for launch index [i] is given by the type
    policy: in the initial launch of [launch_nodes] the request number [i]
    (for [i] below [num_nodes]) has the type of index [i]; in a
    reconciliation at fleet size [c] the replacement number [i] has the type
    of index [c + i], for [i] below the deficit.  With the alternating policy
    the type of an even index is fast and that of an odd index is large; with
    a fixed policy the type of every index is the configured one. *)
Theorem launch_types_follow_policy :
  (∀ N keep ty s,
     ∃ res s' evs,
       launch_nodes env N keep ty s = (res, s')
       ∧ trace s' = trace s ++ evs
       ∧ (∀ (i : nat) t, (i < Z.to_nat N)%nat ->
            launch_types evs !! i = Some t -> t = type_policy ty (Z.of_nat i))
       ∧ (∀ a, res = Ok a -> (Z.to_nat N <= length (launch_types evs))%nat))
  ∧ (∀ s,
       let c := len (active_nodes s) in
       ∃ res s' evs,
         ensure_target_node_count env s = (res, s')
         ∧ trace s' = trace s ++ evs
         ∧ (∀ (i : nat) t, launch_types evs !! i = Some t ->
              keep_running s = true ∧ c + Z.of_nat i < target_node_count s
              ∧ t = type_policy (node_type_setting s) (c + Z.of_nat i))
         ∧ (∀ a, res = Ok a -> keep_running s = true ->
              length (launch_types evs) = Z.to_nat (target_node_count s - c)))
  ∧ (∀ i, type_policy "alternate" i
          = if Z.even i then "ollama_webui:fast" else "ollama_webui:large")
  ∧ (∀ fixed i, fixed ≠ "alternate" ->
          type_policy fixed i = "ollama_webui:" +:+ fixed).
Proof.
  split; [|split; [|split]].
  - apply launch_nodes_launch_types.
  - apply ensure_launch_types.
  - reflexivity.
  - intros fixed i H. unfold type_policy.
    destruct (String.eqb_spec fixed "alternate") as [E|_]; [destruct (H E)|reflexivity].
Qed.
End Types.

Lemma launch_types_follow_policy_witness :
  type_policy "large" 7 = "ollama_webui:large".
Proof.
  apply (proj2 (proj2 (proj2 (launch_types_follow_policy (calm []))))).
  discriminate.
Defined.

(** * Topping up after failed launches (C3) *)

(** C3 fails: of 2 launches the first (index 0, fast) fails; the top-up
    launches index 1 again, and the fleet ends with two large nodes, where
    an uninterrupted launch has one fast and one large. *)
Lemma top_up_changes_the_type_mix :
  let interrupted :=
    active_nodes (snd (launch_nodes first_launch_fails 2 true "alternate"
                         (initial_state 30))) in
  let uninterrupted :=
    active_nodes (snd (launch_nodes (calm []) 2 true "alternate"
                         (initial_state 30))) in
  type <$> interrupted = ["ollama_webui:large"; "ollama_webui:large"]
  ∧ type <$> uninterrupted = ["ollama_webui:fast"; "ollama_webui:large"]
  ∧ ¬ (type <$> interrupted ≡ₚ type <$> uninterrupted).
Proof.
  vm_compute. split; [reflexivity|]. split; [reflexivity|].
  intros H. apply Permutation_length_2_inv in H as [H|H]; discriminate.
Qed.

Section TopUp.
Variable env : World.

Lemma launch_one_run N ty i acc s r :
  launch_replies env (launches s) = Replied r ->
  ∃ new s',
    launch_one env N ty i acc s = (Ok (acc ++ new), s')
    ∧ type <$> new = (if status_code r =? 200 then [type_policy ty i] else [])
    ∧ launches s' = S (launches s)
    ∧ active_nodes s' = active_nodes s
    ∧ same_settings s s'.
Proof.
  intros Hr. unfold launch_one, launch_workload. rewrite policy_agrees.
  unwrap. steps. rewrite Hr. proj. steps.
  destruct (status_code r =? 200); steps; finish.
  - eexists [_]. eexists. split; [reflexivity|]. repeat split.
  - exists []. eexists. rewrite app_nil_r. split; [reflexivity|]. repeat split.
Qed.

Lemma launch_replacement_run c d i s r :
  launch_replies env (launches s) = Replied r ->
  (status_code r =? 200) = true ->
  ∃ new s',
    launch_replacement env c d i s = (Ok tt, s')
    ∧ type new = type_policy (node_type_setting s) (c + i)
    ∧ launches s' = S (launches s)
    ∧ active_nodes s' = active_nodes s ++ [new]
    ∧ same_settings s s'.
Proof.
  intros Hr H200.
  unfold launch_replacement, launch_workload, start_node_monitoring.
  unwrap. steps. rewrite policy_agrees. rewrite Hr. proj. steps.
  rewrite H200. steps. finish.
  eexists. eexists. split; [reflexivity|]. proj.
  split; [|split; [|split]]; cycle 1.
  - reflexivity.
  - reflexivity.
  - repeat split.
  - reflexivity.
Qed.

Lemma launch_batch_run N ty base : ∀ m b acc s,
  launches s = (base + b)%nat ->
  (∀ i, (b <= i < b + m)%nat -> ∃ r, launch_replies env (base + i)%nat = Replied r) ->
  ∃ new s',
    for_fold (Z.of_nat <$> seq b m) acc (launch_one env N ty) s
      = (Ok (acc ++ new), s')
    ∧ type <$> new
      = type_at ty <$>
          filter (fun i => answered_ok (launch_replies env (base + i)%nat) = true)
                 (seq b m)
    ∧ launches s' = (base + b + m)%nat
    ∧ active_nodes s' = active_nodes s
    ∧ same_settings s s'.
Proof.
  induction m as [|m IH]; intros b acc s Hb Hans; cbn [seq fmap list_fmap for_fold].
  - exists [], s. rewrite app_nil_r. split; [reflexivity|].
    split; [reflexivity|]. split; [lia|]. repeat split.
  - destruct (Hans b ltac:(lia)) as (r & Hr).
    destruct (launch_one_run N ty (Z.of_nat b) acc s r) as (n1 & s1 & E1 & Y1 & L1 & A1 & S1).
    { rewrite Hb. exact Hr. }
    rewrite (run_bind_ok _ _ _ _ _ E1).
    destruct (IH (S b) (acc ++ n1) s1) as (n2 & s2 & E2 & Y2 & L2 & A2 & S2).
    { rewrite L1, Hb. lia. }
    { intros i Hi. apply Hans. lia. }
    exists (n1 ++ n2), s2. rewrite app_assoc. split; [exact E2|].
    split.
    { rewrite fmap_app, Y1, Y2, filter_cons, Hr. cbn [answered_ok].
      destruct (status_code r =? 200); [|reflexivity].
      rewrite decide_True by reflexivity. reflexivity. }
    split; [rewrite L2; lia|]. split; [congruence|].
    destruct S1 as (? & ? & ?), S2 as (? & ? & ?). repeat split; congruence.
Qed.

Lemma replacements_run c d base : ∀ m b s,
  launches s = (base + b)%nat ->
  (∀ i, (b <= i < b + m)%nat ->
     answered_ok (launch_replies env (base + i)%nat) = true) ->
  ∃ new s',
    for_fold (Z.of_nat <$> seq b m) tt
             (fun x (_ : unit) => launch_replacement env c d x) s
      = (Ok tt, s')
    ∧ type <$> new
      = (fun i => type_policy (node_type_setting s) (c + Z.of_nat i)) <$> seq b m
    ∧ launches s' = (base + b + m)%nat
    ∧ active_nodes s' = active_nodes s ++ new
    ∧ same_settings s s'.
Proof.
  induction m as [|m IH]; intros b s Hb Hans; cbn [seq fmap list_fmap for_fold].
  - exists [], s. rewrite app_nil_r. split; [reflexivity|].
    split; [reflexivity|]. split; [lia|]. repeat split.
  - pose proof (Hans b ltac:(lia)) as Hr.
    destruct (launch_replies env (base + b)%nat) as [r|] eqn:Er; [|discriminate].
    destruct (launch_replacement_run c d (Z.of_nat b) s r) as (n1 & s1 & E1 & Y1 & L1 & A1 & S1).
    { rewrite Hb. exact Er. }
    { exact Hr. }
    rewrite (run_bind_ok _ _ _ _ _ E1).
    destruct (IH (S b) s1) as (n2 & s2 & E2 & Y2 & L2 & A2 & S2).
    { rewrite L1, Hb. lia. }
    { intros i Hi. apply Hans. lia. }
    exists (n1 :: n2), s2. split; [exact E2|].
    destruct S1 as (St1 & Ss1 & Sk1), S2 as (St2 & Ss2 & Sk2).
    split; [cbn [fmap list_fmap]; rewrite Y1, Y2, Ss1; reflexivity|].
    split; [rewrite L2; lia|].
    split; [rewrite A2, A1, <- app_assoc; reflexivity|].
    repeat split; congruence.
Qed.

(** Reconciliation when every replacement launch is answered with 200. *)
Lemma ensure_run (N : nat) s :
  keep_running s = true ->
  target_node_count s = Z.of_nat N ->
  (length (active_nodes s) <= N)%nat ->
  (∀ j, (j < N - length (active_nodes s))%nat ->
     answered_ok (launch_replies env (launches s + j)%nat) = true) ->
  ∃ new s',
    ensure_target_node_count env s = (Ok (Z.of_nat N), s')
    ∧ active_nodes s' = active_nodes s ++ new
    ∧ type <$> new
      = (fun j => type_policy (node_type_setting s)
                    (len (active_nodes s) + Z.of_nat j))
        <$> seq 0 (N - length (active_nodes s)).
Proof.
  intros K Ht Hc Hans. unfold ensure_target_node_count. steps.
  rewrite K. cbn [negb]. steps. rewrite Ht.
  set (c := length (active_nodes s)) in *.
  destruct (len (active_nodes s) <? Z.of_nat N) eqn:D; steps.
  - unfold logger_info at 1. unfold emit. steps. unfold for_each.
    replace (range (Z.of_nat N - len (active_nodes s)))
      with (Z.of_nat <$> seq 0 (N - c)).
    2:{ unfold range, len. fold c. f_equal. f_equal. lia. }
    match goal with |- context [bind (for_fold _ tt _) _ ?st] =>
      destruct (replacements_run (len (active_nodes s))
                  (Z.of_nat N - len (active_nodes s)) (launches s)
                  (N - c) 0 st) as (new & s1 & E & Y & L & A & S1)
    end.
    { proj. lia. }
    { intros i Hi. apply Hans. lia. }
    rewrite (run_bind_ok _ _ _ _ _ E). steps. finish.
    exists new, s1. proj. rewrite A.
    split; [|split; [reflexivity | exact Y]].
    f_equal. f_equal. unfold len. rewrite length_app.
    assert (length new = (N - c)%nat).
    { rewrite <- (length_fmap type new), Y, length_fmap, length_seq. reflexivity. }
    apply Z.ltb_lt in D. unfold len in D. fold c in D. fold c. lia.
  - finish. apply Z.ltb_ge in D. unfold len in *. fold c in D.
    assert (c = N) by lia.
    exists [], s. rewrite app_nil_r. replace (N - c)%nat with 0%nat by lia.
    split; [|split; reflexivity]. f_equal. f_equal. fold c. lia.
Qed.

Lemma for_each_keeps {A T} (f : State -> T) (l : list A) (body : A -> M unit) :
  (∀ x s, ∃ s', body x s = (Ok tt, s') ∧ f s' = f s) ->
  ∀ s, ∃ s', for_each l body s = (Ok tt, s') ∧ f s' = f s.
Proof.
  intros Hbody. unfold for_each.
  induction l as [|x l IH]; intros s; cbn [for_fold].
  - exists s. split; reflexivity.
  - destruct (Hbody x s) as (s1 & E1 & F1).
    rewrite (run_bind_ok _ _ _ _ _ E1).
    destruct (IH s1) as (s2 & E2 & F2). exists s2.
    split; [exact E2 | congruence].
Qed.

(** [launch_nodes] with [keep_running], when every launch of the batch is
    answered and every replacement launch is answered with 200. *)
Lemma launch_nodes_run (N : nat) s :
  let ok_at i := answered_ok (launch_replies env (launches s + i)%nat) in
  let survivors := filter (fun i => ok_at i = true) (seq 0 N) in
  let c := length survivors in
  (∀ i, (i < N)%nat ->
     ∃ r, launch_replies env (launches s + i)%nat = Replied r) ->
  (∀ j, (N <= j < N + (N - c))%nat -> ok_at j = true) ->
  ∃ s',
    launch_nodes env (Z.of_nat N) true "alternate" s = (Ok tt, s')
    ∧ type <$> active_nodes s'
      = type_at "alternate" <$> (survivors ++ seq c (N - c)).
Proof.
  intros ok_at survivors c Hans Hlater.
  assert (Hc : (c <= N)%nat).
  { subst c survivors. etransitivity; [apply length_filter|].
    rewrite length_seq. reflexivity. }
  unfold launch_nodes. unwrap. steps.
  replace (range (Z.of_nat N)) with (Z.of_nat <$> seq 0 N)
    by (unfold range; rewrite Nat2Z.id; reflexivity).
  match goal with |- context [bind (for_fold _ _ _) _ ?st] =>
    destruct (launch_batch_run (Z.of_nat N) "alternate" (launches s) N 0 [] st)
      as (new & s2 & E & Y & L & A & St & Ss & Sk)
  end.
  { proj. lia. }
  { intros i Hi. apply Hans. lia. }
  rewrite (run_bind_ok _ _ _ _ _ E). cbn [app]. proj. steps.
  fold ok_at in Y. fold survivors in Y.
  assert (Hlen : length new = c).
  { rewrite <- (length_fmap type new), Y, length_fmap. reflexivity. }
  match goal with |- context [bind (for_each ?l ?body) _ ?st] =>
    destruct (for_each_keeps core l body) with (s := st) as (s3 & E3 & F3)
  end.
  { intros [idx n] st. unwrap. eexists. split; reflexivity. }
  rewrite (run_bind_ok _ _ _ _ _ E3). steps.
  match goal with |- context [bind (for_each ?l ?body) _ ?st] =>
    destruct (for_each_keeps core l body) with (s := st) as (s4 & E4 & F4)
  end.
  { intros n st. unfold start_node_monitoring. unwrap. steps. finish.
    eexists. split; reflexivity. }
  rewrite (run_bind_ok _ _ _ _ _ E4). steps.
  unfold core in F3, F4. proj.
  injection F4 as A4 L4 T4 S4 K4. injection F3 as _ L3 T3 S3 K3.
  rewrite K4, K3, Sk. cbn [andb].
  destruct (len new <? Z.of_nat N) eqn:D.
  - destruct (ensure_run N s4) as (new2 & s5 & E5 & A5 & Y5).
    { congruence. }
    { congruence. }
    { rewrite A4, Hlen. exact Hc. }
    { intros j Hj. rewrite A4, Hlen in Hj. rewrite L4, L3, L.
      replace (launches s + 0 + N + j)%nat with (launches s + (N + j))%nat by lia.
      apply Hlater. lia. }
    rewrite (run_bind_ok _ _ _ _ _ E5). finish. exists s5.
    split; [reflexivity|].
    rewrite A5, A4, !fmap_app, Y, Y5. f_equal.
    rewrite A4, Hlen, S4, S3, Ss. unfold len. rewrite Hlen.
    replace (seq c (N - c)) with (Nat.add c <$> seq 0 (N - c))
      by (rewrite fmap_add_seq, Nat.add_0_r; reflexivity).
    rewrite <- list_fmap_compose.
    apply list_fmap_ext. intros _ j _. unfold type_at. cbn [compose].
    rewrite Nat2Z.inj_add. reflexivity.
  - finish. exists s4. split; [reflexivity|].
    apply Z.ltb_ge in D. unfold len in D. rewrite Hlen in D.
    replace (N - c)%nat with 0%nat by lia. cbn [seq]. rewrite app_nil_r.
    rewrite A4. exact Y.
Qed.
End TopUp.

Lemma type_at_alternate i :
  type_at "alternate" i
  = if even_index i then "ollama_webui:fast" else "ollama_webui:large".
Proof. reflexivity. Qed.

Lemma fast_count_le l : (fast_count l <= length l)%nat.
Proof. apply length_filter. Qed.

Lemma fast_count_app l1 l2 : fast_count (l1 ++ l2) = (fast_count l1 + fast_count l2)%nat.
Proof. unfold fast_count. rewrite filter_app, length_app. reflexivity. Qed.

Lemma fast_count_perm l1 l2 : l1 ≡ₚ l2 -> fast_count l1 = fast_count l2.
Proof. intros H. unfold fast_count. rewrite H. reflexivity. Qed.

Lemma fast_count_types l :
  length (filter (fun t => t = "ollama_webui:fast") (type_at "alternate" <$> l))
  = fast_count l.
Proof.
  unfold fast_count. induction l as [|i l IH]; [reflexivity|].
  cbn [fmap list_fmap]. rewrite !filter_cons, type_at_alternate.
  destruct (even_index i); repeat case_decide; try congruence;
    cbn [length]; rewrite IH; reflexivity.
Qed.

Lemma types_grouped l :
  type_at "alternate" <$> l
  ≡ₚ replicate (fast_count l) "ollama_webui:fast"
     ++ replicate (length l - fast_count l) "ollama_webui:large".
Proof.
  induction l as [|i l IH]; [reflexivity|].
  pose proof (fast_count_le l) as Hle.
  cbn [fmap list_fmap length]. rewrite type_at_alternate.
  unfold fast_count in *. rewrite filter_cons.
  destruct (even_index i); case_decide; try congruence.
  - cbn [length replicate app]. rewrite IH. reflexivity.
  - replace (S (length l) - length (filter (fun i => even_index i = true) l))%nat
      with (S (length l - length (filter (fun i => even_index i = true) l)))
      by lia.
    cbn [replicate]. rewrite <- Permutation_middle, IH. reflexivity.
Qed.

Lemma types_permutation_iff l1 l2 :
  length l1 = length l2 ->
  (type_at "alternate" <$> l1 ≡ₚ type_at "alternate" <$> l2
   ↔ fast_count l1 = fast_count l2).
Proof.
  intros Hlen. split.
  - intros H. rewrite <- !fast_count_types, H. reflexivity.
  - intros H. rewrite (types_grouped l1), (types_grouped l2), H, Hlen.
    reflexivity.
Qed.

Lemma filter_all {A} (P : A -> Prop) `{∀ x, Decision (P x)} (l : list A) :
  (∀ x, x ∈ l -> P x) -> filter P l = l.
Proof.
  induction l as [|x l IH]; intros Hall; [reflexivity|].
  rewrite filter_cons_True by (apply Hall, list_elem_of_here).
  f_equal. apply IH. intros y Hy. apply Hall. right. exact Hy.
Qed.

Section TopUpTheorem.
Variable env : World.

(** C3, amended.  After a batch of [N] launches of which some were answered
    with a failure, and a top-up whose launches all succeed, the fleet has
    [N] nodes: the nodes of the indices that succeeded, followed by nodes
    with the types of the indices [c], ..., [N-1], where [c] is the number
    of successes (replacement continues from the fleet size, it does not
    repeat the failed indices).  The types are those of an uninterrupted
    launch, as a multiset, exactly when the failed indices contain as many
    even indices as [c], ..., [N-1] do; in particular when the failed
    launches are the last ones of the batch. *)
Theorem top_up_types (N : nat) (s : State) :
  let ok_at i := answered_ok (launch_replies env (launches s + i)%nat) in
  let survivors := filter (fun i => ok_at i = true) (seq 0 N) in
  let failed := filter (fun i => ok_at i = false) (seq 0 N) in
  let c := length survivors in
  (∀ i, (i < N)%nat ->
     ∃ r, launch_replies env (launches s + i)%nat = Replied r) ->
  (∀ j, (N <= j < N + (N - c))%nat -> ok_at j = true) ->
  ∃ s',
    launch_nodes env (Z.of_nat N) true "alternate" s = (Ok tt, s')
    ∧ length (active_nodes s') = N
    ∧ type <$> active_nodes s'
      = type_at "alternate" <$> (survivors ++ seq c (N - c))
    ∧ (type <$> active_nodes s' ≡ₚ type_at "alternate" <$> seq 0 N
       ↔ fast_count failed = fast_count (seq c (N - c)))
    ∧ ((∀ i, i ∈ failed -> (c <= i)%nat) ->
       type <$> active_nodes s' = type_at "alternate" <$> seq 0 N).
Proof.
  intros ok_at survivors failed c Hans Hlater.
  destruct (launch_nodes_run env N s Hans Hlater) as (s' & E & Y).
  change (type <$> active_nodes s'
          = type_at "alternate" <$> (survivors ++ seq c (N - c))) in Y.
  assert (Hc : (c <= N)%nat).
  { subst c survivors. etransitivity; [apply length_filter|].
    rewrite length_seq. reflexivity. }
  assert (Hlen : length (survivors ++ seq c (N - c)) = N).
  { rewrite length_app, length_seq. fold c. lia. }
  assert (Hf : failed = filter (fun i => ¬ ok_at i = true) (seq 0 N)).
  { apply list_filter_iff. intros i. destruct (ok_at i); split; congruence. }
  exists s'. split; [exact E|].
  split; [rewrite <- (length_fmap type), Y, length_fmap; exact Hlen|].
  split; [exact Y|]. split.
  - rewrite Y, types_permutation_iff by (rewrite length_seq; exact Hlen).
    rewrite fast_count_app.
    assert (Hsplit : fast_count (seq 0 N)
                     = (fast_count survivors + fast_count failed)%nat).
    { rewrite <- fast_count_app. apply fast_count_perm. symmetry.
      rewrite Hf. apply filter_app_complement. }
    rewrite Hsplit. lia.
  - intros Htail. rewrite Y. f_equal.
    assert (Hsplit : survivors
              = filter (fun i => ok_at i = true) (seq 0 c)
                ++ filter (fun i => ok_at i = true) (seq c (N - c))).
    { subst survivors. rewrite <- filter_app.
      change (seq c (N - c)) with (seq (0 + c) (N - c)).
      rewrite <- (seq_app c (N - c) 0).
      replace (c + (N - c))%nat with N by lia. reflexivity. }
    assert (Hhead : filter (fun i => ok_at i = true) (seq 0 c) = seq 0 c).
    { apply filter_all. intros i Hi. apply elem_of_seq in Hi.
      destruct (ok_at i) eqn:Hok; [reflexivity|].
      assert (Hin : i ∈ failed).
      { subst failed. apply list_elem_of_filter. split; [exact Hok|].
        apply elem_of_seq. lia. }
      apply Htail in Hin. lia. }
    rewrite Hhead in Hsplit.
    assert (Hnil : filter (fun i => ok_at i = true) (seq c (N - c)) = []).
    { apply nil_length_inv.
      assert (Hl : length survivors = c) by reflexivity.
      rewrite Hsplit, length_app, length_seq in Hl. lia. }
    rewrite Hnil, app_nil_r in Hsplit. rewrite Hsplit.
    change (seq c (N - c)) with (seq (0 + c) (N - c)).
    rewrite <- (seq_app c (N - c) 0).
    replace (c + (N - c))%nat with N by lia. reflexivity.
Qed.
End TopUpTheorem.

Lemma top_up_types_witness :
  ∃ s', launch_nodes last_launch_fails 2 true "alternate" (initial_state 30)
        = (Ok tt, s')
      ∧ type <$> active_nodes s' = ["ollama_webui:fast"; "ollama_webui:large"].
Proof.
  destruct (top_up_types last_launch_fails 2 (initial_state 30))
    as (s' & E & _ & Y & _).
  - intros [|[|i]] Hi; [eexists; reflexivity | eexists; reflexivity | lia].
  - intros j Hj. vm_compute in Hj. assert (j = 2%nat) as -> by lia. reflexivity.
  - exists s'. split; [exact E | exact Y].
Defined.

(** * The failure counters (C8) *)

Section Counters.
Variable env : World.

Ltac counters_update :=
  unfold counters_zero in *; proj;
  first
    [ assumption
    | intros h v; rewrite lookup_insert; case_decide;
      [ intros [= <-]; reflexivity | eauto ] ].

Lemma counters_launch_workload ty : preserves counters_zero (launch_workload env ty).
Proof. unfold launch_workload. unwrap. pres; counters_update. Qed.

Lemma counters_launch_replacement c d i :
  preserves counters_zero (launch_replacement env c d i).
Proof.
  unfold launch_replacement, start_node_monitoring. unwrap.
  pres; try apply counters_launch_workload; counters_update.
Qed.

Lemma counters_ensure : preserves counters_zero (ensure_target_node_count env).
Proof.
  unfold ensure_target_node_count. unwrap.
  pres; try apply counters_launch_replacement; counters_update.
Qed.

Lemma counters_stop_workload id : preserves counters_zero (stop_workload env id).
Proof. unfold stop_workload. unwrap. pres; counters_update. Qed.

Lemma counters_remove n : preserves counters_zero (remove_failed_node env n).
Proof.
  unfold remove_failed_node. unwrap.
  pres; try apply counters_stop_workload; try apply counters_ensure;
    counters_update.
Qed.

Lemma counters_check h : preserves counters_zero (check_node_health env h).
Proof. unfold check_node_health. unwrap. pres; counters_update. Qed.

Lemma counters_retries h l : preserves counters_zero (health_retries env h l).
Proof.
  induction l as [|i l IH]; cbn [health_retries]; unwrap;
    pres; try apply counters_check; try apply IH; counters_update.
Qed.

Lemma counters_cycle n : preserves counters_zero (monitor_cycle env n).
Proof.
  unfold monitor_cycle, get_running_workloads. unwrap.
  pres; try apply counters_retries; try apply counters_remove;
    try apply counters_ensure; counters_update.
Qed.

Lemma counters_loop fuel n : preserves counters_zero (monitor_loop env fuel n).
Proof.
  induction fuel as [|fuel IH]; cbn [monitor_loop];
    pres; try apply counters_cycle; try apply IH.
Qed.

(** No run of a monitor ever changes a failure counter from 0: the counters
    are written at launch only. *)
Lemma failure_counters_stay_zero fuel n :
  preserves counters_zero (monitor_node env fuel n).
Proof.
  unfold monitor_node. unwrap.
  pres; try apply counters_check; try apply counters_loop; counters_update.
Qed.
End Counters.

(** C8 fails on the code.  The node of [node1] is listed and all 3 health
    checks of its first cycle fail; the stop request of the removal raises,
    which ends the monitor thread before the node is removed.  The node is
    still in the fleet, one cycle has failed since its last successful check
    (it never had one), and its counter is 0: no path of [monitor_node]
    writes [node_failures]. *)
Theorem failed_cycle_is_not_counted :
  let out := monitor_node stop_unreachable 5 node1 (fleet_of [node1] false) in
  fst out = Raised (RequestException "connection refused")
  ∧ active_nodes (snd out) = [node1]
  ∧ failed_cycles "h1" (trace (snd out)) = 1%nat
  ∧ node_failures (snd out) !! "h1" = Some 0.
Proof. vm_compute. repeat split. Qed.

(** * Further properties of the script *)

(** ** What is raised *)

Section Guards.

Context (I : State -> Prop) (P : Exn -> Prop).








End Guards.




Section Raises.
Variable env : World.
Variable I : State -> Prop.
Hypothesis I_frame : ∀ s s', WORKLOAD_POLL s' = WORKLOAD_POLL s -> I s -> I s'.














End Raises.

Section RaisesTheorems.
Variable env : World.








End RaisesTheorems.



(** ** What is never changed *)

(** An update of the state that leaves the settings alone. *)
Ltac settings_update :=
  unfold settings_are, settings in *; proj; first [assumption | congruence].

Ltac flag_update :=
  unfold flag_cleared in *; proj;
  first
    [ assumption
    | reflexivity
    | match goal with
      | H : should_monitor _ = false |- _ => rewrite H; reflexivity
      end ].

Section Frame.
Variable env : World.

Section Settings.
Variable c : Z * string * bool * Z.

Lemma settings_launch_workload ty : preserves (settings_are c) (launch_workload env ty).
Proof. unfold launch_workload. unwrap. pres; settings_update. Qed.

Lemma settings_stop_workload id : preserves (settings_are c) (stop_workload env id).
Proof. unfold stop_workload. unwrap. pres; settings_update. Qed.

Lemma settings_ensure : preserves (settings_are c) (ensure_target_node_count env).
Proof.
  unfold ensure_target_node_count, launch_replacement, start_node_monitoring.
  unwrap. pres; try apply settings_launch_workload; settings_update.
Qed.

Lemma settings_check host : preserves (settings_are c) (check_node_health env host).
Proof. unfold check_node_health. unwrap. pres; settings_update. Qed.

Lemma settings_retries host l : preserves (settings_are c) (health_retries env host l).
Proof.
  induction l as [|i l IH]; cbn [health_retries]; unwrap; pres;
    try apply settings_check; try apply IH; settings_update.
Qed.

Lemma settings_remove n : preserves (settings_are c) (remove_failed_node env n).
Proof.
  unfold remove_failed_node. unwrap. pres;
    try apply settings_stop_workload; try apply settings_ensure;
    settings_update.
Qed.

Lemma settings_cycle n : preserves (settings_are c) (monitor_cycle env n).
Proof.
  unfold monitor_cycle, get_running_workloads. unwrap. pres;
    try apply settings_retries; try apply settings_remove;
    try apply settings_ensure; settings_update.
Qed.

Lemma settings_loop fuel n : preserves (settings_are c) (monitor_loop env fuel n).
Proof.
  induction fuel as [|fuel IH]; cbn [monitor_loop]; pres;
    try apply settings_cycle; try apply IH.
Qed.

Lemma settings_monitor fuel n : preserves (settings_are c) (monitor_node env fuel n).
Proof.
  unfold monitor_node. unwrap. pres;
    try apply settings_check; try apply settings_loop; settings_update.
Qed.

Lemma settings_stop_all : preserves (settings_are c) (stop_all_workloads env).
Proof.
  unfold stop_all_workloads, stop_one. unwrap. pres;
    try apply settings_stop_workload; settings_update.
Qed.

End Settings.

(** X3.  The settings of the fleet are written by the controller only: a monitor
    thread, a reconciliation and the final stop of the fleet leave the target
    count, the type policy, the keep-running flag and the polling interval
    as they are, whatever the provider and the nodes answer. *)
Theorem monitors_leave_the_settings (s : State) :
  (∀ fuel n, settings (snd (monitor_node env fuel n s)) = settings s)
  ∧ settings (snd (ensure_target_node_count env s)) = settings s
  ∧ settings (snd (stop_all_workloads env s)) = settings s.
Proof.
  split; [|split].
  - intros fuel n. apply (settings_monitor (settings s) fuel n s). reflexivity.
  - apply (settings_ensure (settings s) s). reflexivity.
  - apply (settings_stop_all (settings s) s). reflexivity.
Qed.

Lemma settings_launch_nodes N keep ty s :
  settings (snd (launch_nodes env N keep ty s)) = (N, ty, keep, WORKLOAD_POLL s).
Proof.
  unfold launch_nodes. rewrite run_modify.
  match goal with
  | |- settings (snd (?m ?st)) = ?c =>
      assert (Hp : preserves (settings_are c) m);
      [| apply Hp; reflexivity]
  end.
  unfold launch_one, start_node_monitoring. unwrap. pres;
    try apply settings_launch_workload; try apply settings_ensure;
    settings_update.
Qed.

(** X4.  [main] configures the fleet from the command line: when at least one
    node is asked for, the run ends (normally or not) with the target count
    [--nodes], the type policy [--type], the flag [--keep-running], and the
    polling interval [--poll] if that is given and positive; a [--poll] of 0
    or less is ignored. *)
Theorem main_takes_settings_from_command_line (args : Args) (s : State) :
  1 <= arg_nodes args ->
  settings (snd (main env args s))
  = (arg_nodes args, arg_type args, arg_keep_running args,
     poll_of args (WORKLOAD_POLL s)).
Proof.
  intros H. assert (D : (arg_nodes args <? 1) = false) by (apply Z.ltb_ge, H).
  unfold main. rewrite D. steps.
  assert (E : ∃ s1, WORKLOAD_POLL s1 = poll_of args (WORKLOAD_POLL s)
    ∧ ∀ B (k : unit -> M B),
        bind match arg_poll args with
             | Some p =>
                 if 0 <? p then
                   modify (with_WORKLOAD_POLL p) ;;
                   poll <- gets WORKLOAD_POLL ;;
                   logger_info
                     "Setting node health polling interval to {WORKLOAD_POLL} seconds"
                     [VInt poll]
                 else ret tt
             | None => ret tt
             end k s = k tt s1).
  { unfold poll_of. destruct (arg_poll args) as [p|]; [destruct (0 <? p)|];
      unwrap; eexists; (split; [|intros B k; steps; reflexivity]); reflexivity. }
  destruct E as (s1 & P1 & E). rewrite E.
  pose proof (settings_launch_nodes (arg_nodes args) (arg_keep_running args)
                (arg_type args) s1) as L.
  rewrite P1 in L.
  match goal with
  | |- settings (snd (bind ?m ?k s1)) = ?c =>
      assert (Hp : ∀ a, preserves (settings_are c) (k a))
  end.
  { intros a. unwrap. pres; try apply settings_stop_all; settings_update. }
  unfold bind.
  destruct (launch_nodes env (arg_nodes args) (arg_keep_running args)
              (arg_type args) s1) as [[a|e] s2]; cbn [snd] in L.
  - apply (Hp a), L.
  - exact L.
Qed.

Section Flag.

Lemma flag_launch_workload ty : preserves flag_cleared (launch_workload env ty).
Proof. unfold launch_workload. unwrap. pres; flag_update. Qed.

Lemma flag_stop_workload id : preserves flag_cleared (stop_workload env id).
Proof. unfold stop_workload. unwrap. pres; flag_update. Qed.

Lemma flag_ensure : preserves flag_cleared (ensure_target_node_count env).
Proof.
  unfold ensure_target_node_count, launch_replacement, start_node_monitoring.
  unwrap. pres; try apply flag_launch_workload; flag_update.
Qed.

Lemma flag_check host : preserves flag_cleared (check_node_health env host).
Proof. unfold check_node_health. unwrap. pres; flag_update. Qed.

Lemma flag_retries host l : preserves flag_cleared (health_retries env host l).
Proof.
  induction l as [|i l IH]; cbn [health_retries]; unwrap; pres;
    try apply flag_check; try apply IH; flag_update.
Qed.

Lemma flag_monitor fuel n : preserves flag_cleared (monitor_node env fuel n).
Proof.
  assert (C : preserves flag_cleared (monitor_cycle env n)).
  { unfold monitor_cycle, get_running_workloads, remove_failed_node.
    unwrap. pres; try apply flag_retries; try apply flag_stop_workload;
      try apply flag_ensure; flag_update. }
  assert (L : ∀ f, preserves flag_cleared (monitor_loop env f n)).
  { induction f as [|f IH]; cbn [monitor_loop]; pres;
      try apply C; try apply IH. }
  unfold monitor_node. unwrap. pres;
    try apply flag_check; try apply L; flag_update.
Qed.

Lemma flag_stop_all : preserves flag_cleared (stop_all_workloads env).
Proof.
  unfold stop_all_workloads, stop_one. unwrap. pres;
    try apply flag_stop_workload; flag_update.
Qed.

Lemma flag_launch_nodes N keep ty : preserves flag_cleared (launch_nodes env N keep ty).
Proof.
  unfold launch_nodes, launch_one, start_node_monitoring. unwrap. pres;
    try apply flag_launch_workload; try apply flag_ensure; flag_update.
Qed.

Lemma flag_main args : preserves flag_cleared (main env args).
Proof.
  unfold main. unwrap. pres;
    try apply flag_launch_nodes; try apply flag_stop_all; flag_update.
Qed.

End Flag.

(** X5.  The shutdown flag is never set again: no function of the script writes
    [True] to [should_monitor].  Once it is false it is false after every
    run of [main], of [launch_nodes], of a reconciliation and of a monitor
    thread, so monitors started after the shutdown began (by a reconciliation
    that was under way) end at their first look at the flag. *)
Theorem shutdown_flag_is_never_set_again (s : State) :
  should_monitor s = false ->
  (∀ args, should_monitor (snd (main env args s)) = false)
  ∧ (∀ N keep ty, should_monitor (snd (launch_nodes env N keep ty s)) = false)
  ∧ should_monitor (snd (ensure_target_node_count env s)) = false
  ∧ (∀ fuel n, should_monitor (snd (monitor_node env fuel n s)) = false).
Proof.
  intros H. split; [|split; [|split]].
  - intros args. apply (flag_main args s H).
  - intros N keep ty. apply (flag_launch_nodes N keep ty s H).
  - apply (flag_ensure s H).
  - intros fuel n. apply (flag_monitor fuel n s H).
Qed.

End Frame.

Lemma main_takes_settings_from_command_line_witness :
  settings (snd (main (calm []) two_nodes (initial_state 30)))
  = (2, "alternate", true, 30).
Proof.
  apply (main_takes_settings_from_command_line (calm []) two_nodes
           (initial_state 30)).
  vm_compute. discriminate.
Defined.

Lemma shutdown_flag_is_never_set_again_witness :
  should_monitor
    (snd (monitor_node (calm []) 3 node1
            (with_should_monitor false (fleet_of [node1] true)))) = false.
Proof.
  apply (shutdown_flag_is_never_set_again (calm [])
           (with_should_monitor false (fleet_of [node1] true)) eq_refl).
Defined.

(** ** What the main thread sends *)

Lemma thread_joins_none evs :
  Forall (fun e => ∀ h, e ≠ ThreadJoin h) evs -> thread_joins evs = [].
Proof.
  induction 1 as [|e evs He _ IH]; [reflexivity|].
  unfold thread_joins in *. cbn [omap list_omap]. rewrite IH.
  destruct e; try reflexivity. destruct (He host eq_refl).
Qed.

Section MainSends.
Variable env : World.
Variable Q : Event -> Prop.
Hypothesis HQ : ∀ e, reconcile_event e = true -> Q e.
Variable t0 : list Event.

Lemma launch_nodes_added N keep ty :
  preserves (added Q t0) (launch_nodes env N keep ty).
Proof.
  unfold launch_nodes, launch_one. unwrap. pres;
    try (apply launch_workload_added; assumption);
    try (apply start_node_monitoring_added; assumption);
    try (apply ensure_added; assumption); added_update HQ.
Qed.

Lemma stop_all_added :
  (∀ id, Q (PostStop id)) -> preserves (added Q t0) (stop_all_workloads env).
Proof.
  intros Hs. unfold stop_all_workloads, stop_one. unwrap. pres;
    try (apply stop_workload_added; [assumption | apply Hs]); added_update HQ.
Qed.

Lemma main_added args :
  (∀ h, Q (ThreadJoin h)) ->
  (sigint env = true -> arg_no_rm args = false -> ∀ id, Q (PostStop id)) ->
  preserves (added Q t0) (main env args).
Proof.
  intros HJ Hs. unfold main.
  destruct (sigint env) eqn:Si; destruct (arg_no_rm args) eqn:Rm;
    cbn [negb]; cbv iota; unwrap; pres;
    try apply launch_nodes_added;
    try (apply stop_all_added; apply Hs; reflexivity);
    added_update HQ.
Qed.

End MainSends.

Section MainSendsTheorem.
Variable env : World.

(** X6.  The main thread leaves the monitoring to the monitor threads: a run of
    [main] makes no health request and no list request.  It sends a stop
    request only when it is interrupted and [--no-rm] is not given; with
    [--no-rm], or when the monitors end by themselves, the workloads that
    still run are left running. *)
Theorem main_stops_workloads_only_on_interrupt (args : Args) (s : State) :
  ∃ evs, trace (snd (main env args s)) = trace s ++ evs
    ∧ health_requests evs = []
    ∧ (PostWorkloads ∉ evs)
    ∧ (sigint env = false ∨ arg_no_rm args = true -> stop_requests evs = []).
Proof.
  destruct (main_added env main_event) with (t0 := trace s) (args := args)
    (s := s) as (evs & T & F).
  { intros e He. split; [intros h|]; destruct e; discriminate. }
  { intros h. split; [intros h'|]; discriminate. }
  { intros _ _ id. split; [intros h'|]; discriminate. }
  { apply added_refl. }
  exists evs. split; [exact T|]. split; [|split].
  - apply health_requests_none. eapply Forall_impl; [exact F|].
    intros e [H _]. exact H.
  - intros Hin. rewrite Forall_forall in F. destruct (F _ Hin) as [_ H].
    apply H. reflexivity.
  - intros H.
    destruct (main_added env not_stop) with (t0 := trace s) (args := args)
      (s := s) as (evs' & T' & F').
    { intros e He id. destruct e; discriminate. }
    { intros h id. discriminate. }
    { intros Si Rm. destruct H; congruence. }
    { apply added_refl. }
    rewrite T in T'. apply app_inv_head in T'. subst evs'.
    apply stop_requests_none, F'.
Qed.

End MainSendsTheorem.

Lemma main_stops_workloads_only_on_interrupt_witness :
  ∃ evs, trace (snd (main one_stop_fails leave_running (initial_state 30)))
         = [] ++ evs
       ∧ stop_requests evs = [].
Proof.
  destruct (main_stops_workloads_only_on_interrupt one_stop_fails leave_running
              (initial_state 30)) as (evs & T & _ & _ & H).
  exists evs. split; [exact T|]. apply H. right. reflexivity.
Defined.

(** ** Stopping the fleet, whatever the provider answers *)

Lemma main_unfold env args :
  main env args
  = ((if arg_nodes args <? 1 then
        logger_error "Error: Number of nodes must be at least 1" [] ;;
        raise (SystemExit 1)
      else ret tt) ;;
     match arg_poll args with
     | Some p =>
         if 0 <? p then
           modify (with_WORKLOAD_POLL p) ;;
           poll <- gets WORKLOAD_POLL ;;
           logger_info "Setting node health polling interval to {WORKLOAD_POLL} seconds"
                       [VInt poll]
         else ret tt
     | None => ret tt
     end ;;
     launch_nodes env (arg_nodes args) (arg_keep_running args) (arg_type args) ;;
     if sigint env then shutdown env (arg_no_rm args) else ret tt).
Proof. reflexivity. Qed.

(** Pushes a view of a trace through its concatenations. *)
Ltac views :=
  unfold stop_requests, thread_joins, health_requests, launch_types in *;
  repeat progress (rewrite ?omap_app; cbn [omap list_omap app]).

Section Shutdown.
Variable env : World.

Lemma stop_loop_any nodes : ∀ s,
  ∃ res s' evs (k : nat), for_each nodes (stop_one env) s = (res, s')
    ∧ trace s' = trace s ++ evs
    ∧ stop_requests evs = take k (workload <$> nodes)
    ∧ globals s' = globals s
    ∧ stops s' = (stops s + k)%nat
    ∧ match res with
      | Ok _ => k = length nodes
      | Raised e => (0 < k <= length nodes)%nat ∧ gave_up env s k e
      end.
Proof.
  unfold for_each.
  induction nodes as [|n nodes IH]; intros s; cbn [for_fold].
  - exists (Ok tt), s, [], 0%nat. rewrite app_nil_r. repeat split. lia.
  - destruct (stop_one_any env n s) as (r1 & s1 & e1 & E1 & T1 & R1 & G1 & S1 & O1).
    assert (Hk : ∀ k, (stops s1 + k - 1 = stops s + S k - 1)%nat) by (intros; lia).
    destruct r1 as [[]|e0].
    + rewrite (run_bind_ok _ _ _ _ _ E1).
      destruct (IH s1) as (res & s2 & e2 & k & E2 & T2 & R2 & G2 & S2 & O2).
      exists res, s2, (e1 ++ e2), (S k). split; [exact E2|].
      split; [rewrite T2, T1, app_assoc; reflexivity|].
      split; [unfold stop_requests in *; rewrite omap_app, R1, R2; reflexivity|].
      split; [congruence|]. split; [lia|].
      destruct res as [[]|e].
      * cbn [length]. lia.
      * destruct O2 as (Hlt & O2). split; [cbn [length]; lia|].
        unfold gave_up in *. rewrite <- Hk. exact O2.
    + rewrite (run_bind_raised _ _ _ _ _ E1).
      exists (Raised e0), s1, e1, 1%nat.
      split; [reflexivity|]. split; [exact T1|].
      split; [rewrite R1; cbn; rewrite take_0; reflexivity|].
      split; [exact G1|]. split; [lia|].
      split; [cbn [length]; lia|].
      unfold gave_up. replace (stops s + 1 - 1)%nat with (stops s) by lia.
      destruct (stop_replies env (stops s)) as [r|d].
      * destruct (reportable env r) eqn:Hr; [destruct O1 as (X & _); discriminate X|].
        injection O1 as ->. right. exists r. auto.
      * injection O1 as ->. left. exists d. auto.
Qed.

Lemma stop_all_any s :
  ∃ res s' evs (k : nat), stop_all_workloads env s = (res, s')
    ∧ trace s' = trace s ++ evs
    ∧ stop_requests evs = take k (workload <$> active_nodes s)
    ∧ globals s' = globals s
    ∧ stops s' = (stops s + k)%nat
    ∧ match res with
      | Ok _ => k = length (active_nodes s)
      | Raised e => (0 < k <= length (active_nodes s))%nat ∧ gave_up env s k e
      end.
Proof.
  unfold stop_all_workloads. unwrap. steps.
  match goal with |- context [bind (for_each _ _) _ ?st] =>
    destruct (stop_loop_any (active_nodes s) st)
      as (res & s1 & e1 & k & E1 & T1 & R1 & G1 & S1 & O1)
  end.
  proj. destruct res as [[]|e].
  - rewrite (run_bind_ok _ _ _ _ _ E1). finish.
    eexists. eexists. eexists. exists k. split; [reflexivity|]. proj.
    rewrite T1. proj. rewrite <- !app_assoc. split; [reflexivity|].
    split. { views. rewrite R1, app_nil_r. reflexivity. }
    split; [exact G1|]. split; [exact S1|]. exact O1.
  - rewrite (run_bind_raised _ _ _ _ _ E1).
    eexists. eexists. eexists. exists k. split; [reflexivity|].
    rewrite T1. proj. rewrite <- !app_assoc. split; [reflexivity|].
    split. { views. exact R1. }
    split; [exact G1|]. split; [exact S1|]. exact O1.
Qed.

(** X7.  [stop_all_workloads] sends its stop requests in the order of
    [active_nodes] and gives up at the first stop that raises, be it the
    request itself or the rendering of the time in its answer: the nodes
    after it get no stop request, and the exception leaves the function.
    Whatever happens, the fleet and the settings are as before:
    [active_nodes] still lists the nodes that were stopped. *)
Theorem stop_all_gives_up_at_first_raise (s : State) :
  ∃ res s' evs (k : nat), stop_all_workloads env s = (res, s')
    ∧ trace s' = trace s ++ evs
    ∧ stop_requests evs = take k (workload <$> active_nodes s)
    ∧ globals s' = globals s
    ∧ match res with
      | Ok _ => k = length (active_nodes s)
      | Raised e => (0 < k <= length (active_nodes s))%nat ∧ gave_up env s k e
      end.
Proof.
  destruct (stop_all_any s) as (res & s' & evs & k & E & T & R & G & _ & O).
  exists res, s', evs, k. auto.
Qed.

Lemma join_loop_run threads : ∀ s,
  ∃ s' evs, for_each threads join_one s = (Ok tt, s')
    ∧ trace s' = trace s ++ evs
    ∧ thread_joins evs = threads.*1
    ∧ stop_requests evs = []
    ∧ globals s' = globals s
    ∧ should_monitor s' = should_monitor s.
Proof.
  unfold for_each.
  induction threads as [|[h n] threads IH]; intros s; cbn [for_fold].
  - exists s, []. rewrite app_nil_r. repeat split.
  - unfold join_one at 1. unwrap. steps.
    match goal with |- context [for_fold _ _ _ ?st] =>
      destruct (IH st) as (s2 & e2 & E2 & T2 & J2 & R2 & G2 & F2)
    end.
    exists s2. eexists. split; [exact E2|].
    rewrite T2. proj. rewrite <- !app_assoc. split; [reflexivity|].
    split. { unfold thread_joins in *. cbn [omap list_omap fmap list_fmap fst app].
             rewrite J2. reflexivity. }
    split. { unfold stop_requests in *. cbn [omap list_omap app]. exact R2. }
    split; [exact G2 | exact F2].
Qed.

Lemma shutdown_run s :
  ∃ res s' evs, shutdown env false s = (res, s')
    ∧ trace s' = trace s ++ evs
    ∧ thread_joins evs = (node_threads s).*1
    ∧ globals s' = globals s
    ∧ should_monitor s' = false
    ∧ (∀ a, res = Ok a -> stop_requests evs = workload <$> active_nodes s).
Proof.
  unfold shutdown. cbn [negb]. unwrap. steps.
  match goal with |- context [bind (for_each _ _) _ ?st] =>
    destruct (join_loop_run (node_threads s) st)
      as (s1 & e1 & E1 & T1 & J1 & R1 & G1 & F1)
  end.
  rewrite (run_bind_ok _ _ _ _ _ E1). steps.
  match goal with |- context [bind (stop_all_workloads env) _ ?st] =>
    destruct (stop_all_any st)
      as (res & s2 & e2 & k & E2 & T2 & R2 & G2 & _ & O2);
    pose proof (flag_stop_all env st) as F2;
    destruct (stop_all_added env (fun e => ∀ h, e ≠ ThreadJoin h)
                (fun e He h => ltac:(destruct e; discriminate)) (trace st)
                (fun id h => ltac:(discriminate)) st (added_refl _ st))
      as (e2' & T2' & J2)
  end.
  rewrite E2 in T2'. cbn [snd] in T2'. rewrite T2 in T2'.
  apply app_inv_head in T2'. subst e2'. apply thread_joins_none in J2.
  rewrite E2 in F2. unfold flag_cleared in F2. proj.
  specialize (F2 F1). unfold globals in *. proj.
  injection G1 as A1 N1 Th1 Ta1 Ty1 K1 P1.
  injection G2 as A2 N2 Th2 Ta2 Ty2 K2 P2.
  destruct res as [[]|e].
  - rewrite (run_bind_ok _ _ _ _ _ E2). finish.
    eexists. eexists. eexists. split; [reflexivity|]. proj.
    rewrite T2. proj. rewrite T1. proj. rewrite <- !app_assoc.
    split; [reflexivity|].
    split. { views. rewrite J1, J2, app_nil_r. reflexivity. }
    split; [congruence|]. split; [exact F2|].
    intros _ _. views. rewrite R1, R2, app_nil_r, O2, A1. cbn [app].
    rewrite <- (length_fmap workload). apply firstn_all.
  - rewrite (run_bind_raised _ _ _ _ _ E2).
    eexists. eexists. eexists. split; [reflexivity|].
    rewrite T2. proj. rewrite T1. proj. rewrite <- !app_assoc.
    split; [reflexivity|].
    split. { views. rewrite J1, J2, app_nil_r. reflexivity. }
    split; [congruence|]. split; [exact F2|].
    intros a X. discriminate X.
Qed.

(** X8.  When [main] is interrupted without [--no-rm] and returns, it has joined
    the monitor thread of every host of [node_threads], in the order of that
    table, and then sent one stop request for every node of the fleet, in the
    order of [active_nodes]; these are its only stop requests.  It ends with
    the shutdown flag cleared, and with the fleet still listed. *)
Theorem interrupted_main_stops_the_fleet (args : Args) (s : State) :
  sigint env = true -> arg_no_rm args = false ->
  fst (main env args s) = Ok tt ->
  let s' := snd (main env args s) in
  ∃ evs, trace s' = trace s ++ evs
    ∧ stop_requests evs = workload <$> active_nodes s'
    ∧ thread_joins evs = (node_threads s').*1
    ∧ should_monitor s' = false.
Proof.
  intros Si Rm.
  assert (X : ∃ r s', main env args s = (r, s')
    ∧ (r = Ok tt ->
       ∃ evs, trace s' = trace s ++ evs
         ∧ stop_requests evs = workload <$> active_nodes s'
         ∧ thread_joins evs = (node_threads s').*1
         ∧ should_monitor s' = false)).
  2:{ destruct X as (r & s' & -> & X). exact X. }
  rewrite main_unfold, Si, Rm.
  destruct (arg_nodes args <? 1) eqn:D.
  { unwrap. steps. finish. eexists. eexists. split; [reflexivity|].
    intros X; discriminate X. }
  steps.
  assert (E : ∃ s1 pre, trace s1 = trace s ++ pre ∧ reconcile_only pre
    ∧ ∀ B (k : unit -> M B),
        bind match arg_poll args with
             | Some p =>
                 if 0 <? p then
                   modify (with_WORKLOAD_POLL p) ;;
                   poll <- gets WORKLOAD_POLL ;;
                   logger_info
                     "Setting node health polling interval to {WORKLOAD_POLL} seconds"
                     [VInt poll]
                 else ret tt
             | None => ret tt
             end k s = k tt s1).
  { destruct (arg_poll args) as [p|]; [destruct (0 <? p)|]; unwrap;
      eexists; eexists;
      (split; [|split; [|intros B k; steps; reflexivity]]); proj;
      try (rewrite app_nil_r; reflexivity); try reflexivity;
      repeat constructor. }
  destruct E as (s1 & pre & T1 & F1 & E). rewrite E. clear E.
  destruct (launch_nodes_added env (fun e => reconcile_event e = true)
              (fun e H => H) (trace s) (arg_nodes args)
              (arg_keep_running args) (arg_type args) s1)
    as (evs2 & T2 & F2).
  { exists pre. split; [exact T1 | exact F1]. }
  unfold bind at 1.
  destruct (launch_nodes env (arg_nodes args) (arg_keep_running args)
              (arg_type args) s1) as [[[]|e] s2].
  2:{ eexists. eexists. split; [reflexivity|]. intros X; discriminate X. }
  cbn [snd] in T2.
  destruct (shutdown_run s2) as (res & s3 & evs3 & E3 & T3 & J3 & G3 & Fl3 & R3).
  exists res, s3. split; [exact E3|]. intros ->.
  unfold globals in G3. injection G3 as A3 N3 Th3 _ _ _ _.
  exists (evs2 ++ evs3). rewrite T3, T2, app_assoc.
  split; [reflexivity|].
  assert (Q2 : stop_requests evs2 = [] ∧ thread_joins evs2 = []).
  { split.
    - apply stop_requests_none. eapply Forall_impl; [exact F2|].
      intros e He id. destruct e; discriminate.
    - apply thread_joins_none. eapply Forall_impl; [exact F2|].
      intros e He h. destruct e; discriminate. }
  destruct Q2 as (R2 & J2).
  unfold stop_requests, thread_joins in *. rewrite !omap_app, R2, J2.
  cbn [app]. rewrite (R3 tt eq_refl), J3, A3, Th3. auto.
Qed.

End Shutdown.

Lemma interrupted_main_stops_the_fleet_witness :
  ∃ evs, trace (snd (main interrupted two_nodes (initial_state 30))) = [] ++ evs
    ∧ stop_requests evs = ["id0"; "id1"].
Proof.
  destruct (interrupted_main_stops_the_fleet interrupted two_nodes
              (initial_state 30) eq_refl eq_refl)
    as (evs & T & R & _).
  - vm_compute. reflexivity.
  - exists evs. split; [exact T|]. rewrite R. vm_compute. reflexivity.
Defined.

(** ** Every node of the fleet is monitored *)





Section Tracked.
Variable env : World.


Section Since.
Variable t0 : list Event.











End Since.







End Tracked.



(** ** Monitoring without replacement, and of a node that is not tracked *)

Lemma filter_filter_same {A} (P : A -> Prop) `{∀ x, Decision (P x)} (l : list A) :
  filter P (filter P l) = filter P l.
Proof.
  apply filter_all. intros x Hx. apply list_elem_of_filter in Hx as [Hx _].
  exact Hx.
Qed.

Ltac shrunk_update :=
  unfold only_shrunk in *; proj;
  match goal with
  | H : _ ∧ _ ∧ (_ ∨ _) |- _ =>
      let K := fresh "K" in let L := fresh "L" in let A := fresh "A" in
      destruct H as (K & L & A);
      first
        [ split; [exact K|]; split; [exact L|]; exact A
        | split; [exact K|]; split; [exact L|];
          destruct A as [-> | ->];
          [ right; reflexivity | right; apply filter_filter_same ] ]
  end.

Section Shrinks.
Variable env : World.
Variable fleet : list NodeInfo.
Variable count : nat.
Variable id : string.


Lemma shrunk_ensure : preserves (only_shrunk fleet count id) (ensure_target_node_count env).
Proof.
  intros s H. assert (K : keep_running s = false) by apply H.
  unfold ensure_target_node_count. steps. rewrite K. cbn [negb]. steps.
  exact H.
Qed.

Lemma shrunk_check host : preserves (only_shrunk fleet count id) (check_node_health env host).
Proof. unfold check_node_health. unwrap. pres; shrunk_update. Qed.

Lemma shrunk_retries host l :
  preserves (only_shrunk fleet count id) (health_retries env host l).
Proof.
  induction l as [|i l IH]; cbn [health_retries]; unwrap; pres;
    try apply shrunk_check; try apply IH; shrunk_update.
Qed.

Lemma shrunk_stop_workload w :
  preserves (only_shrunk fleet count id) (stop_workload env w).
Proof. unfold stop_workload. unwrap. pres; shrunk_update. Qed.

End Shrinks.

Section ShrinksTheorem.
Variable env : World.

Lemma shrunk_monitor fleet count fuel n :
  preserves (only_shrunk fleet count (workload n)) (monitor_node env fuel n).
Proof.
  assert (C : preserves (only_shrunk fleet count (workload n)) (monitor_cycle env n)).
  { unfold monitor_cycle, get_running_workloads, remove_failed_node. unwrap.
    pres; try apply shrunk_retries; try apply shrunk_stop_workload;
      try apply shrunk_ensure; shrunk_update. }
  assert (L : ∀ f, preserves (only_shrunk fleet count (workload n))
                     (monitor_loop env f n)).
  { induction f as [|f IH]; cbn [monitor_loop]; pres;
      try apply C; try apply IH. }
  unfold monitor_node. unwrap. pres;
    try apply shrunk_check; try apply L; shrunk_update.
Qed.

(** X13.  Without [keep_running] a monitor thread never launches a node and
    never adds one to the fleet: when it ends, in whatever way, the fleet is
    the one it started with, or that fleet without the nodes that carry the
    workload id of the monitored node. *)
Theorem monitor_without_keep_running_only_shrinks
    (fuel : nat) (n : NodeInfo) (s : State) :
  keep_running s = false ->
  let s' := snd (monitor_node env fuel n s) in
  launches s' = launches s
  ∧ (active_nodes s' = active_nodes s
     ∨ active_nodes s'
       = filter (fun m => workload m ≠ workload n) (active_nodes s)).
Proof.
  intros K s'.
  destruct (shrunk_monitor (active_nodes s) (launches s) fuel n s)
    as (_ & L & A).
  { split; [exact K|]. split; [reflexivity|]. left. reflexivity. }
  split; [exact L | exact A].
Qed.

(** X14.  A monitor thread whose node is not in [active_nodes] makes its
    initial health request and ends at once: it sends no list, stop or
    launch request and leaves the fleet, the tables and the settings as they
    are. *)
Theorem monitor_of_untracked_node_ends_at_once
    (fuel : nat) (n : NodeInfo) (s : State) :
  n ∉ active_nodes s ->
  ∃ s', monitor_node env (S fuel) n s = (Ok true, s')
    ∧ probed (node n) 1 s s'.
Proof.
  intros Hn. unfold monitor_node. unwrap. steps.
  match goal with |- context [bind (check_node_health env (node n)) _ ?st] =>
    destruct (check_node_health_run env (node n) st) as (s2 & E2 & P2);
    assert (P1 : probed (node n) 0 s st) by apply probed_log, probed_refl
  end.
  rewrite (run_bind_ok _ _ _ _ _ E2).
  pose proof (probed_trans _ _ _ _ _ _ P1 P2) as P. cbn [Nat.add] in P.
  assert (Loop : ∀ st, probed (node n) 1 s st ->
            monitor_loop env (S fuel) n st = (Ok true, st)).
  { intros st Pst. cbn [monitor_loop]. steps.
    pose proof (probed_globals _ _ _ _ Pst) as G. unfold globals in G.
    injection G as A _ _ _ _ _ _.
    rewrite bool_decide_false by (rewrite A; exact Hn).
    rewrite andb_false_r. reflexivity. }
  destruct (healthy (health_replies env _)); steps;
    (erewrite run_bind_ok by (apply Loop, probed_log, P));
    steps; finish; (eexists; split; [reflexivity|]);
    apply probed_log, probed_log, P.
Qed.

End ShrinksTheorem.

Lemma monitor_without_keep_running_only_shrinks_witness :
  launches (snd (monitor_node dead_node 5 node1 no_replacement)) = 0%nat.
Proof.
  apply (proj1 (monitor_without_keep_running_only_shrinks dead_node 5 node1
                  no_replacement eq_refl)).
Defined.

Lemma monitor_of_untracked_node_ends_at_once_witness :
  ∃ s', monitor_node (calm []) 3 node3 no_replacement = (Ok true, s')
    ∧ probed "h3" 1 no_replacement s'.
Proof.
  apply (monitor_of_untracked_node_ends_at_once (calm []) 2 node3 no_replacement).
  intros H. apply elem_of_cons in H as [H|H]; [discriminate H|].
  apply elem_of_cons in H as [H|H]; [discriminate H|]. inversion H.
Defined.

(** ** What a monitor sends *)

Section MonitorSends.
Variable env : World.
Variable n : NodeInfo.
Variable t0 : list Event.


Lemma monitor_event_reconcile e : reconcile_event e = true -> monitor_event n e.
Proof. destruct e; try discriminate; intros _; exact Logic.I. Qed.

Lemma monitor_event_probe : monitor_event n (GetNode (node n)).
Proof. reflexivity. Qed.

Lemma monitor_event_list : monitor_event n PostWorkloads.
Proof. exact Logic.I. Qed.

Lemma monitor_event_stop : monitor_event n (PostStop (workload n)).
Proof. reflexivity. Qed.

Lemma check_node_health_sends :
  preserves (added (monitor_event n) t0) (check_node_health env (node n)).
Proof.
  pose proof monitor_event_probe as HG.
  unfold check_node_health. unwrap. pres; added_update monitor_event_reconcile.
Qed.

Lemma health_retries_sends l :
  preserves (added (monitor_event n) t0) (health_retries env (node n) l).
Proof.
  induction l as [|i l IH]; cbn [health_retries]; unwrap; pres;
    try apply check_node_health_sends; try apply IH;
    added_update monitor_event_reconcile.
Qed.

Lemma monitor_node_sends fuel :
  preserves (added (monitor_event n) t0) (monitor_node env fuel n).
Proof.
  pose proof monitor_event_list as HW.
  assert (C : preserves (added (monitor_event n) t0) (monitor_cycle env n)).
  { unfold monitor_cycle, get_running_workloads. unwrap. pres;
      try apply health_retries_sends;
      try (apply remove_failed_node_added;
           [apply monitor_event_reconcile | apply monitor_event_stop]);
      try (apply ensure_added; apply monitor_event_reconcile);
      added_update monitor_event_reconcile. }
  assert (L : ∀ f, preserves (added (monitor_event n) t0) (monitor_loop env f n)).
  { induction f as [|f IH]; cbn [monitor_loop]; pres;
      try apply C; try apply IH. }
  unfold monitor_node. unwrap. pres;
    try apply check_node_health_sends; try apply L;
    added_update monitor_event_reconcile.
Qed.

End MonitorSends.

Section MonitorSendsTheorem.
Variable env : World.

(** X15.  A monitor thread sends health requests to the host of its own node
    only, and stop requests for the workload of its own node only; it joins
    no thread.  (Its launch requests are those of the reconciliation.) *)
Theorem monitor_touches_only_its_node (fuel : nat) (n : NodeInfo) (s : State) :
  ∃ evs, trace (snd (monitor_node env fuel n s)) = trace s ++ evs
    ∧ (∀ host, host ∈ health_requests evs -> host = node n)
    ∧ (∀ id, id ∈ stop_requests evs -> id = workload n)
    ∧ thread_joins evs = [].
Proof.
  destruct (monitor_node_sends env n (trace s) fuel s (added_refl _ s))
    as (evs & T & F).
  exists evs. split; [exact T|]. rewrite Forall_forall in F.
  split; [|split].
  - intros host Hh. unfold health_requests in Hh.
    apply list_elem_of_omap in Hh as (e & He & Hx).
    specialize (F e He). destruct e; try discriminate Hx.
    injection Hx as <-. exact F.
  - intros id Hi. unfold stop_requests in Hi.
    apply list_elem_of_omap in Hi as (e & He & Hx).
    specialize (F e He). destruct e; try discriminate Hx.
    injection Hx as <-. exact F.
  - apply thread_joins_none. apply Forall_forall. intros e He h ->.
    exact (F _ He).
Qed.

End MonitorSendsTheorem.
